(** * tap-bing-ads: schema discovery, sync walk and account fetch

    A shallow embedding of [tap_bing_ads/__init__.py] and
    [tap_bing_ads/fetch_ad_accounts.py].

    - Python values are the inductive [Py]; a dict is an association list in
      insertion order ([dict_set] overwrites in place, as a Python dict does).
    - A Python exception is the [Raise] case of [result].
    - The schema dicts built by [get_type_map] are shared objects: pass 2 stores
      the dict held by the type map inside other dicts and mutates dicts in
      place.  They live in a store ([Heap]) and are named by location
      ([PRef]).
    - A suds object (one with [__keylist__]) is [PSObject], a naive
      [datetime] is [PDatetime]; both occur in SDK responses only.
    - The SDK client, the HTTP transport and Python's [int] are parameters. *)

From stdpp Require Import base list strings.
From Stdlib Require Import ZArith Ascii String.

Local Open Scope string_scope.
Local Open Scope list_scope.

Set Warnings "-register-all".

(** ** Python values, exceptions, dicts *)

Inductive exn : Type :=
| TypeError
| IndexError
| AttributeError
| KeyError
| ValueError
| RemoteError.

Inductive result (A : Type) : Type :=
| Ok (a : A)
| Raise (e : exn).

Arguments Ok {A} a.
Arguments Raise {A} e.

(** [result] is a monad in stdpp's sense, which gives the [x ← m; k]
    notation for sequencing statements that may raise. *)
#[global] Instance result_ret : MRet result := fun A a => Ok a.

#[global] Instance result_bind : MBind result := fun A B k m =>
  match m with
  | Ok a => k a
  | Raise e => Raise e
  end.

(** A location of the store of shared dict objects. *)
Abbreviation loc := nat (only parsing).

Inductive Py : Type :=
| PNone
| PBool (b : bool)
| PInt (z : Z)
| PStr (s : string)
| PList (l : list Py)
| PDict (d : list (string * Py))
| PRef (l : loc)
| PSObject (items : list (string * Py))
| PDatetime (t : Z).

(** A dict with string keys: the items in insertion order. *)
Definition dict (V : Type) : Type := list (string * V).

Fixpoint dict_get {V : Type} (k : string) (d : dict V) : option V :=
  match d with
  | [] => None
  | (k', v) :: d' => if String.eqb k k' then Some v else dict_get k d'
  end.

(** [d[k] = v]: an existing key keeps its position, a new key goes last. *)
Fixpoint dict_set {V : Type} (k : string) (v : V) (d : dict V) : dict V :=
  match d with
  | [] => [(k, v)]
  | (k', v') :: d' =>
      if String.eqb k k' then (k', v) :: d' else (k', v') :: dict_set k v d'
  end.

(** [k in d] *)
Definition dict_mem {V : Type} (k : string) (d : dict V) : bool :=
  match dict_get k d with
  | Some _ => true
  | None => false
  end.

(** [needle in hay] on strings. *)
Fixpoint str_contains (needle hay : string) : bool :=
  String.prefix needle hay ||
  match hay with
  | EmptyString => false
  | String _ rest => str_contains needle rest
  end.

(** ** suds schema objects

    The attributes of a suds [SchemaObject] that the tap reads:
    [root.name], [name], [qname], [nillable], [type], [ref] and
    [rawchildren].  [type] and [ref] are [None] or a pair (name, namespace). *)

Inductive SchemaObject : Type :=
  MkSchemaObject {
    root_name : string;
    name : string;
    qname : string * string;
    nillable : bool;
    type : option (string * string);
    ref : option (string * string);
    rawchildren : list SchemaObject
  }.

(** [l[0]] *)
Definition first {A : Type} (l : list A) : result A :=
  match l with
  | [] => Raise IndexError
  | x :: _ => Ok x
  end.

(** [t[0]] and [t[1]] on a value that is a pair or [None]. *)
Definition subscript0 (t : option (string * string)) : result string :=
  match t with
  | Some (a, _) => Ok a
  | None => Raise TypeError
  end.

Definition subscript1 (t : option (string * string)) : result string :=
  match t with
  | Some (_, b) => Ok b
  | None => Raise TypeError
  end.

(** ** Scalar mapper *)

Definition xml_to_json_type (xml_type : string) : string :=
  if String.eqb xml_type "boolean" then "boolean"
  else if existsb (String.eqb xml_type) ["decimal"; "float"; "double"] then "number"
  else if String.eqb xml_type "long" then "integer"
  else if existsb (String.eqb xml_type) ["dateTime"; "date"] then "string"
  else "string".

(** ** Shape inferencer *)

Definition get_json_schema (element : SchemaObject) : result Py :=
  let types := if nillable element then [PStr "null"] else [] in
  '(types, format, enum) ←
    (if String.eqb (root_name element) "simpleType" then
       r ← first (rawchildren element);
       Ok (types ++ [PStr "string"], None,
           Some (map (fun x => PStr (name x)) (rawchildren r)))
     else
       xml_type ← subscript0 (type element);
       Ok (types ++ [PStr (xml_to_json_type xml_type)],
           (if existsb (String.eqb xml_type) ["dateTime"; "date"]
            then Some "date-time" else None),
           None));
  let schema := [("type", PList types)] in
  let schema :=
    match format with
    | Some f => dict_set "format" (PStr f) schema
    | None => schema
    end in
  let schema :=
    match enum with
    | Some ((_ :: _) as e) => dict_set "enum" (PList e) schema
    | _ => schema
    end in
  Ok (PDict schema).

(** [array_type_regex = r'ArrayOf([a-z]+)'] used with [re.match]: the string
    starts with [ArrayOf] followed by at least one letter of [a-z]; the group
    is greedy, so it is the whole run of such letters. *)

Definition is_lower (c : ascii) : bool :=
  (97 <=? nat_of_ascii c)%nat && (nat_of_ascii c <=? 122)%nat.

Fixpoint lower_run (s : string) : string :=
  match s with
  | String c rest => if is_lower c then String c (lower_run rest) else ""
  | EmptyString => ""
  end.

Fixpoint strip_prefix (p s : string) : option string :=
  match p, s with
  | EmptyString, _ => Some s
  | String a p', String b s' => if Ascii.eqb a b then strip_prefix p' s' else None
  | String _ _, EmptyString => None
  end.

(** [re.match(array_type_regex, s)]: [None], or a match whose [groups()[0]]
    is the returned string. *)
Definition array_type_match (s : string) : option string :=
  match strip_prefix "ArrayOf" s with
  | Some rest =>
      match lower_run rest with
      | EmptyString => None
      | tok => Some tok
      end
  | None => None
  end.

Definition get_array_type (array_type : string) : result Py :=
  match array_type_match array_type with
  | None => Raise AttributeError
  | Some xml_type =>
      let json_type := xml_to_json_type xml_type in
      Ok (PDict [("type", PStr "array");
                 ("items", PDict [("type", PStr json_type)])])
  end.

Definition XMLSchema_ns : string := "http://www.w3.org/2001/XMLSchema".

Definition is_None {A : Type} (o : option A) : bool :=
  match o with
  | None => true
  | Some _ => false
  end.

(** The body of the loop of [wsdl_type_to_schema]: the value stored at
    [properties[element.name]]. *)
Definition element_property (element : SchemaObject) : result Py :=
  if String.eqb (root_name element) "enumeration" then
    get_json_schema element
  else if is_None (type element) && negb (is_None (ref element)) then
    r ← subscript0 (ref element);
    Ok (PStr r)
  else
    ns ← subscript1 (type element);
    if negb (String.eqb ns XMLSchema_ns) then
      _type ← subscript0 (type element);
      if str_contains "ArrayOfstring" _type then get_array_type _type
      else Ok (PStr _type)
    else
      get_json_schema element.

Fixpoint build_properties (elements : list SchemaObject) (properties : dict Py)
  : result (dict Py) :=
  match elements with
  | [] => Ok properties
  | element :: rest =>
      v ← element_property element;
      build_properties rest (dict_set (name element) v properties)
  end.

Definition object_schema (properties : dict Py) : Py :=
  PDict [("type", PList [PStr "object"]);
         ("additionalProperties", PBool false);
         ("properties", PDict properties)].

Definition wsdl_type_to_schema (wsdl_type : SchemaObject) : result Py :=
  if String.eqb (root_name wsdl_type) "simpleType" then
    get_json_schema wsdl_type
  else
    c ← first (rawchildren wsdl_type);
    properties ← build_properties (rawchildren c) [];
    Ok (object_schema properties).

(** ** Type map resolver

    [type_map] maps a type name to its schema dict.  The dicts are objects of
    the store: [type_map[descriptor]] is a reference to one, and
    [schema['properties'][prop] = ...] writes into the object at [schema]'s
    location, whoever else holds a reference to it. *)

Abbreviation Heap := (list Py) (only parsing).
Definition TypeMap : Type := dict loc.

(** [schema['properties'][prop] = v] for the dict at location [l];
    [fill_in_nested_types] has read [schema['properties']] before it gets
    here. *)
Definition set_property (l : loc) (prop : string) (v : Py) (h : Heap) : Heap :=
  match h !! l with
  | Some (PDict schema) =>
      match dict_get "properties" schema with
      | Some (PDict props) =>
          <[l := PDict (dict_set "properties" (PDict (dict_set prop v props)) schema)]> h
      | _ => h
      end
  | _ => h
  end.

(** The loop of [fill_in_nested_types] over [schema['properties'].items()].
    An assignment to the key being visited changes neither the keys nor the
    values still to come, so the items are those at loop entry. *)
Fixpoint fill_items (type_map : TypeMap) (l : loc) (items : dict Py) (h : Heap)
  : Heap :=
  match items with
  | [] => h
  | (prop, descriptor) :: rest =>
      let h' :=
        match descriptor with
        | PStr d =>
            match dict_get d type_map with
            | Some target => set_property l prop (PRef target) h
            | None => h
            end
        | _ => h
        end in
      fill_items type_map l rest h'
  end.

Definition fill_in_nested_types (type_map : TypeMap) (l : loc) (h : Heap)
  : result Heap :=
  match h !! l with
  | Some (PDict schema) =>
      match dict_get "properties" schema with
      | Some (PDict props) => Ok (fill_items type_map l props h)
      | Some _ => Raise AttributeError
      | None => Raise KeyError
      end
  | _ => Raise TypeError
  end.

Definition in_service_namespace (ns : string) : bool :=
  str_contains "https://bingads.microsoft.com" ns ||
  str_contains "http://schemas.datacontract.org" ns.

(** Pass 1: the first loop of [get_type_map].  Each schema is a new dict,
    allocated at the next free location. *)
Fixpoint first_pass (types : list SchemaObject) (type_map : TypeMap) (h : Heap)
  : result (TypeMap * Heap) :=
  match types with
  | [] => Ok (type_map, h)
  | _type :: rest =>
      if negb (in_service_namespace (snd (qname _type))) then
        first_pass rest type_map h
      else
        schema ← wsdl_type_to_schema _type;
        first_pass rest (dict_set (name _type) (List.length h) type_map) (h ++ [schema])
  end.

(** Pass 2: the second loop of [get_type_map], over [type_map.items()]. *)
Fixpoint second_pass (type_map : TypeMap) (items : dict loc) (h : Heap)
  : result Heap :=
  match items with
  | [] => Ok h
  | (type_name, l) :: rest =>
      match h !! l with
      | Some (PDict schema) =>
          if dict_mem "properties" schema then
            h' ← fill_in_nested_types type_map l h;
            second_pass type_map rest h'
          else second_pass type_map rest h
      | _ => Raise TypeError
      end
  end.

(** [types] is [client.soap_client.sd[0].types], each tuple reduced to its
    first component. *)
Definition get_type_map (types : list SchemaObject) : result (TypeMap * Heap) :=
  '(type_map, h) ← first_pass types [] [];
  h' ← second_pass type_map type_map h;
  Ok (type_map, h').

(** ** Python operators used by the sync walk and the account fetch *)

(** [k in v] for a string [k].  A suds object answers by its key list. *)
Definition py_contains (k : string) (v : Py) : result bool :=
  match v with
  | PDict d => Ok (dict_mem k d)
  | PSObject items => Ok (dict_mem k items)
  | PStr s => Ok (str_contains k s)
  | PList l =>
      Ok (existsb (fun x => match x with PStr s => String.eqb s k | _ => false end) l)
  | _ => Raise TypeError
  end.

(** [v[k]] for a string [k]. *)
Definition py_getitem (v : Py) (k : string) : result Py :=
  match v with
  | PDict d =>
      match dict_get k d with
      | Some x => Ok x
      | None => Raise KeyError
      end
  | PSObject items =>
      match dict_get k items with
      | Some x => Ok x
      | None => Raise AttributeError
      end
  | _ => Raise TypeError
  end.

(** The items that [for x in v] visits. *)
Definition py_iter (v : Py) : result (list Py) :=
  match v with
  | PList l => Ok l
  | PDict d => Ok (map (fun kv => PStr (fst kv)) d)
  | PSObject items => Ok (map (fun kv => PList [PStr (fst kv); snd kv]) items)
  | PStr s => Ok (map (fun c => PStr (String c EmptyString)) (list_ascii_of_string s))
  | _ => Raise TypeError
  end.

(** [v.get(k)]: only a dict has the method. *)
Definition py_get (v : Py) (k : string) : result Py :=
  match v with
  | PDict d =>
      match dict_get k d with
      | Some x => Ok x
      | None => Ok PNone
      end
  | _ => Raise AttributeError
  end.

Fixpoint mapM {A B : Type} (f : A -> result B) (l : list A) : result (list B) :=
  match l with
  | [] => Ok []
  | x :: rest =>
      y ← f x;
      ys ← mapM f rest;
      Ok (y :: ys)
  end.

(** ** Record emission

    [singer.write_record] serialises the record as JSON and appends the
    message to standard output.  A computation takes the messages written so
    far and returns them extended, with its value or the exception that
    stopped it. *)

Definition Out : Type := list (string * Py).

(** What [json.dumps] accepts: [None], booleans, integers, strings, and
    lists and dicts of such values.  A suds object or a [datetime] at any
    depth is refused.  A record is a decoded SDK response and holds no
    reference into the store of schema dicts; no store is at hand to follow
    one, and it is counted as refused. *)
Fixpoint json_serialisable (v : Py) : bool :=
  match v with
  | PNone => true
  | PBool _ => true
  | PInt _ => true
  | PStr _ => true
  | PList l => forallb json_serialisable l
  | PDict d => forallb (fun kv => json_serialisable (snd kv)) d
  | PRef _ => false
  | PSObject _ => false
  | PDatetime _ => false
  end.

Definition M (A : Type) : Type := Out -> Out * result A.

#[global] Instance M_ret : MRet M := fun A a out => (out, Ok a).

#[global] Instance M_bind : MBind M := fun A B k m out =>
  match m out with
  | (out', Ok a) => k a out'
  | (out', Raise e) => (out', Raise e)
  end.

Definition lift {A : Type} (r : result A) : M A := fun out => (out, r).

(** The message is serialised before anything is written: a record that
    [json.dumps] refuses raises [TypeError] and leaves the output as it
    was. *)
Definition write_record (stream : string) (record : Py) : M unit :=
  fun out =>
    if json_serialisable record then (out ++ [(stream, record)], Ok tt)
    else (out, Raise TypeError).

Fixpoint for_each {A : Type} (l : list A) (body : A -> M unit) : M unit :=
  match l with
  | [] => mret tt
  | x :: rest => _ ← body x; for_each rest body
  end.

(** [k in selected_streams] *)
Definition selected (k : string) (selected_streams : list string) : bool :=
  existsb (String.eqb k) selected_streams.

Section Sync.

(** The SDK: [ServiceClient] and its operations, and the timestamp
    formatting [utils.strftime(pytz.utc.localize(v))]. *)
Variable Client : Type.
Variable create_sdk_client : string -> Py -> Py -> result Client.
Variable GetAccount : Client -> Py -> result Py.
Variable GetCampaignsByAccountId : Client -> Py -> result Py.
Variable GetAdGroupsByCampaignId : Client -> Py -> result Py.
(** [GetAdsByAdGroupId(AdGroupId=..., AdTypes=...)] with the fixed list of
    ad types. *)
Variable GetAdsByAdGroupId : Client -> Py -> result Py.
Variable strftime : Z -> string.

Fixpoint sobject_to_dict (d : Py) : Py :=
  match d with
  | PSObject items =>
      PDict
        ((fix loop (items : list (string * Py)) (out : dict Py) : dict Py :=
            match items with
            | [] => out
            | (k, v) :: rest =>
                let v' :=
                  match v with
                  | PSObject _ => sobject_to_dict v
                  | PList l => PList (map sobject_to_dict l)
                  | PDatetime t => PStr (strftime t)
                  | _ => v
                  end in
                loop rest (dict_set k v' out)
            end) items [])
  | _ => d
  end.

Definition sync_account_stream (customer_id account_id : Py) : M unit :=
  client ← lift (create_sdk_client "CustomerManagementService" customer_id account_id);
  response ← lift (GetAccount client account_id);
  write_record "accounts" (sobject_to_dict response).

(** The result is [None] or the lazy [map(lambda x: x['Id'], campaigns)]:
    each [x['Id']] is evaluated when the consumer reaches it. *)
Definition sync_campaigns (client : Client) (account_id : Py)
    (selected_streams : list string) : M (option (list (result Py))) :=
  response ← lift (GetCampaignsByAccountId client account_id);
  let response_dict := sobject_to_dict response in
  b ← lift (py_contains "Campaign" response_dict);
  if b : bool then
    campaigns ← lift (py_getitem response_dict "Campaign");
    _ ← (if selected "campaigns" selected_streams then
           items ← lift (py_iter campaigns);
           for_each items (write_record "campaigns")
         else mret tt);
    items ← lift (py_iter campaigns);
    mret (Some (map (fun x => py_getitem x "Id") items))
  else mret None.

Fixpoint sync_ad_groups_loop (client : Client) (campaign_ids : list (result Py))
    (selected_streams : list string) (ad_group_ids : list Py) : M (list Py) :=
  match campaign_ids with
  | [] => mret ad_group_ids
  | next :: rest =>
      campaign_id ← lift next;
      response ← lift (GetAdGroupsByCampaignId client campaign_id);
      let response_dict := sobject_to_dict response in
      b ← lift (py_contains "AdGroup" response_dict);
      if b : bool then
        ad_groups ← lift (py_getitem (sobject_to_dict response) "AdGroup");
        _ ← (if selected "ad_groups" selected_streams then
               items ← lift (py_iter ad_groups);
               for_each items (write_record "ad_groups")
             else mret tt);
        items ← lift (py_iter ad_groups);
        ids ← lift (mapM (fun x => py_getitem x "Id") items);
        sync_ad_groups_loop client rest selected_streams (ad_group_ids ++ [PList ids])
      else sync_ad_groups_loop client rest selected_streams ad_group_ids
  end.

Definition sync_ad_groups (client : Client) (campaign_ids : list (result Py))
    (selected_streams : list string) : M (list Py) :=
  sync_ad_groups_loop client campaign_ids selected_streams [].

Definition sync_ads (client : Client) (ad_group_ids : list Py) : M unit :=
  for_each ad_group_ids (fun ad_group_id =>
    response ← lift (GetAdsByAdGroupId client ad_group_id);
    let response_dict := sobject_to_dict response in
    b ← lift (py_contains "Ad" response_dict);
    if b : bool then
      ads ← lift (py_getitem response_dict "Ad");
      items ← lift (py_iter ads);
      for_each items (write_record "ads")
    else mret tt).

Definition sync_core_objects (customer_id account_id : Py)
    (selected_streams : list string) : M unit :=
  _ ← (if selected "accounts" selected_streams
       then sync_account_stream customer_id account_id
       else mret tt);
  client ← lift (create_sdk_client "CampaignManagementService" customer_id account_id);
  campaign_ids ← sync_campaigns client account_id selected_streams;
  match campaign_ids with
  | Some ids =>
      if selected "ad_groups" selected_streams || selected "ads" selected_streams then
        ad_group_ids ← sync_ad_groups client ids selected_streams;
        if selected "ads" selected_streams then sync_ads client ad_group_ids
        else mret tt
      else mret tt
  | None => mret tt
  end.

Definition sync_account (customer_id account_id : Py)
    (selected_streams : list string) : M unit :=
  sync_core_objects customer_id account_id selected_streams.

Definition do_sync_all_accounts (customer_id : Py) (account_ids : list Py)
    (selected_streams : list string) : M unit :=
  for_each account_ids (fun account_id =>
    sync_account customer_id account_id selected_streams).

End Sync.

(** ** Account fetch ([fetch_ad_accounts.py]) *)

Fixpoint get_field (fields : list string) (obj : Py) (default : Py) : result Py :=
  match fields with
  | [] => Ok obj
  | field :: rest =>
      obj' ← py_get obj field;
      match obj' with
      | PNone => Ok default
      | _ => get_field rest obj' default
      end
  end.

Definition customer_id_path : list string :=
  ["s:Envelope"; "s:Body"; "GetCustomersInfoResponse"; "CustomersInfo";
   "a:CustomerInfo"; "a:Id"].

Definition account_info_path : list string :=
  ["s:Envelope"; "s:Body"; "GetAccountsInfoResponse"; "AccountsInfo";
   "a:AccountInfo"].

Section FetchAdAccounts.

(** [_request]: the POST and [xmltodict.parse], given the SOAP action and
    the values interpolated into the envelope; and Python's [int]. *)
Variable _request : string -> list Py -> result Py.
Variable py_int : Py -> result Z.

Definition _request_customer_id (access_token developer_token : Py) : result Z :=
  response ← _request "GetCustomersInfo" [access_token; developer_token];
  customer_id ← get_field customer_id_path response PNone;
  py_int customer_id.

Definition _request_ad_accounts (customer_id : Z) (access_token developer_token : Py)
  : result Py :=
  response ← _request "GetAccountsInfo" [access_token; developer_token; PInt customer_id];
  ad_account_or_accounts ← get_field account_info_path response (PList []);
  match ad_account_or_accounts with
  | PDict _ => Ok (PList [ad_account_or_accounts])
  | _ => Ok ad_account_or_accounts
  end.

Definition fetch_ad_accounts (access_token developer_token : Py)
  : result (Z * list Py) :=
  customer_id ← _request_customer_id access_token developer_token;
  ad_accounts ← _request_ad_accounts customer_id access_token developer_token;
  items ← py_iter ad_accounts;
  result_ad_accounts ← mapM (fun ad_account => py_getitem ad_account "a:Id") items;
  Ok (customer_id, result_ad_accounts).

End FetchAdAccounts.

(** ** Notions of the specification *)

(** The integral types of XML Schema. *)
Definition xsd_integral_types : list string :=
  ["integer"; "long"; "int"; "short"; "byte";
   "nonNegativeInteger"; "positiveInteger"; "nonPositiveInteger"; "negativeInteger";
   "unsignedLong"; "unsignedInt"; "unsignedShort"; "unsignedByte"].

(** What following [fields] from [obj] through nested dicts leads to:
    [Some v] when every field is present with a value other than [None],
    [None] as soon as a field is missing or maps to [None]. *)
Inductive chain : list string -> Py -> option Py -> Prop :=
| chain_end (obj : Py) :
    chain [] obj (Some obj)
| chain_missing (field : string) (rest : list string) (d : dict Py) :
    dict_get field d = None ->
    chain (field :: rest) (PDict d) None
| chain_none (field : string) (rest : list string) (d : dict Py) :
    dict_get field d = Some PNone ->
    chain (field :: rest) (PDict d) None
| chain_step (field : string) (rest : list string) (d : dict Py) (v : Py)
    (o : option Py) :
    dict_get field d = Some v ->
    v <> PNone ->
    chain rest v o ->
    chain (field :: rest) (PDict d) o.

(** A property value after pass 2: a placeholder naming a mapped type has
    become the reference to that type's dict. *)
Definition resolve_descriptor (type_map : TypeMap) (descriptor : Py) : Py :=
  match descriptor with
  | PStr d =>
      match dict_get d type_map with
      | Some target => PRef target
      | None => descriptor
      end
  | _ => descriptor
  end.

Definition resolve_properties (type_map : TypeMap) (props : dict Py) : dict Py :=
  map (fun kv => (fst kv, resolve_descriptor type_map (snd kv))) props.

Definition resolve_schema (type_map : TypeMap) (cell : Py) : Py :=
  match cell with
  | PDict schema =>
      match dict_get "properties" schema with
      | Some (PDict props) =>
          PDict (dict_set "properties" (PDict (resolve_properties type_map props)) schema)
      | _ => cell
      end
  | _ => cell
  end.

(** [schema['properties'][prop]] of the dict at location [l]. *)
Definition property_at (h : Heap) (l : loc) (prop : string) : option Py :=
  match h !! l with
  | Some (PDict schema) =>
      match dict_get "properties" schema with
      | Some (PDict props) => dict_get prop props
      | _ => None
      end
  | _ => None
  end.

(** A dict as [wsdl_type_to_schema] builds it: no [properties] key, or a
    dict of properties there, whose keys are distinct. *)
Definition schema_wf (cell : Py) : Prop :=
  exists schema, cell = PDict schema /\
    (dict_get "properties" schema = None \/
     exists props, dict_get "properties" schema = Some (PDict props) /\ NoDup props.*1).

(** ** Example inputs *)

Definition bingads_ns : string := "https://bingads.microsoft.com/Customer/v13".
Definition arrays_ns : string :=
  "http://schemas.microsoft.com/2003/10/Serialization/Arrays".

(** [<xs:element name=n type=t/>] with [t] in namespace [ns]. *)
Definition typed_element (n t ns : string) (nil : bool) : SchemaObject :=
  {| root_name := "element"; name := n; qname := (n, bingads_ns);
     nillable := nil; type := Some (t, ns); ref := None; rawchildren := [] |}.

(** A node without [type] and [ref]. *)
Definition untyped_node (root n : string) (children : list SchemaObject)
  : SchemaObject :=
  {| root_name := root; name := n; qname := (n, bingads_ns);
     nillable := false; type := None; ref := None; rawchildren := children |}.

Definition enumeration_of (values : list string) : SchemaObject :=
  untyped_node "restriction" "" (map (fun v => untyped_node "enumeration" v []) values).

(** [<xs:complexType name=n><xs:sequence> children </xs:sequence>] *)
Definition complex_type (n : string) (children : list SchemaObject) : SchemaObject :=
  untyped_node "complexType" n [untyped_node "sequence" "" children].

(** [<xs:simpleType name=n><xs:restriction> enumerations ] *)
Definition simple_type (n : string) (values : list string) : SchemaObject :=
  untyped_node "simpleType" n [enumeration_of values].

(** [Status] declared inline:
    [<xs:element name="Status"><xs:simpleType><xs:restriction>...] *)
Definition status_inline_element : SchemaObject :=
  untyped_node "element" "Status" [simple_type "" ["Active"; "Paused"]].

(** [Status] as a child whose root is an [enumeration] node, the case the
    first branch of the loop of [wsdl_type_to_schema] tests for. *)
Definition status_enumeration_child : SchemaObject :=
  untyped_node "enumeration" "Status" [enumeration_of ["Active"; "Paused"]].

(** [Status] typed by the service's simple type of the same name. *)
Definition status_named_element : SchemaObject :=
  typed_element "Status" "Status" bingads_ns false.

Definition account_type (status : SchemaObject) : SchemaObject :=
  complex_type "Account"
    [typed_element "Id" "long" XMLSchema_ns false;
     typed_element "Name" "string" XMLSchema_ns false;
     status].

Definition status_fragment : Py :=
  PDict [("type", PList [PStr "string"]);
         ("enum", PList [PStr "Active"; PStr "Paused"])].

Definition account_properties (status : Py) : dict Py :=
  [("Id", PDict [("type", PList [PStr "integer"])]);
   ("Name", PDict [("type", PList [PStr "string"])]);
   ("Status", status)].

(** The fragment of the end-to-end example of the specification. *)
Definition account_fragment : Py := object_schema (account_properties status_fragment).

(** A child typed [ArrayOflong]. *)
Definition array_of_long_child : SchemaObject :=
  typed_element "Ids" "ArrayOflong" arrays_ns false.

Definition array_fragment (json_type : string) : Py :=
  PDict [("type", PStr "array"); ("items", PDict [("type", PStr json_type)])].

Definition nillable_dateTime_fragment : Py :=
  PDict [("type", PList [PStr "null"; PStr "string"]);
         ("format", PStr "date-time")].

(** What [_request_ad_accounts] makes of the outcome of following
    [account_info_path]: nothing there gives the empty list, one account
    dict gives the list of that dict, a list is kept. *)
Definition listed_accounts (o : option Py) : option (list Py) :=
  match o with
  | None => Some []
  | Some (PDict d) => Some [PDict d]
  | Some (PList l) => Some l
  | Some _ => None
  end.

(** A decoded response: [value] under the nested keys [path]. *)
Definition nested (path : list string) (value : Py) : Py :=
  foldr (fun k v => PDict [(k, v)]) value path.

Definition example_request (action : string) (params : list Py) : result Py :=
  if String.eqb action "GetCustomersInfo" then
    Ok (nested customer_id_path (PStr "42"))
  else
    Ok (nested account_info_path
          (PDict [("a:Id", PStr "7"); ("a:Name", PStr "Contoso")])).

Definition example_int (v : Py) : result Z :=
  match v with
  | PInt z => Ok z
  | PStr "42" => Ok 42%Z
  | PStr _ => Raise ValueError
  | _ => Raise TypeError
  end.

(** A chain of references: [A] has a property typed [B], [B] one typed
    [C]. *)
Definition chain_types : list SchemaObject :=
  [complex_type "A" [typed_element "b" "B" bingads_ns false];
   complex_type "B" [typed_element "c" "C" bingads_ns false];
   complex_type "C" [typed_element "x" "long" XMLSchema_ns false]].

Definition chain_type_map : TypeMap := [("A", 0); ("B", 1); ("C", 2)].

(** The store after pass 1 and after pass 2 of [get_type_map chain_types]. *)
Definition chain_heap_pass1 : list Py :=
  Eval vm_compute in
    match first_pass chain_types [] [] with
    | Ok (_, h) => h
    | Raise _ => []
    end.

Definition chain_heap : list Py :=
  Eval vm_compute in
    match get_type_map chain_types with
    | Ok (_, h) => h
    | Raise _ => []
    end.

(** [Campaign] refers to [Budget], which the service declares, and to
    [ArrayOfSetting], which it does not. *)
Definition gap_types : list SchemaObject :=
  [complex_type "Budget" [typed_element "Amount" "decimal" XMLSchema_ns true];
   complex_type "Campaign"
     [typed_element "Id" "long" XMLSchema_ns true;
      typed_element "Budget" "Budget" bingads_ns true;
      typed_element "Settings" "ArrayOfSetting" bingads_ns true]].

Definition gap_type_map : TypeMap := [("Budget", 0); ("Campaign", 1)].

Definition gap_heap_pass1 : list Py :=
  Eval vm_compute in
    match first_pass gap_types [] [] with
    | Ok (_, h) => h
    | Raise _ => []
    end.

Definition no_placeholder (props : dict Py) : Prop :=
  Forall (fun kv => forall d, snd kv <> PStr d) props.

(** [Order] refers to [Customer], all of whose properties are primitive. *)
Definition order_type : SchemaObject :=
  complex_type "Order"
    [typed_element "Id" "long" XMLSchema_ns false;
     typed_element "Buyer" "Customer" bingads_ns true].

Definition customer_type : SchemaObject :=
  complex_type "Customer"
    [typed_element "Name" "string" XMLSchema_ns false;
     typed_element "Since" "dateTime" XMLSchema_ns true].

Definition order_properties : dict Py :=
  [("Id", PDict [("type", PList [PStr "integer"])]);
   ("Buyer", PStr "Customer")].

Definition customer_properties : dict Py :=
  [("Name", PDict [("type", PList [PStr "string"])]);
   ("Since", nillable_dateTime_fragment)].

(** The number of messages written to a stream. *)
Definition count_stream (stream : string) (out : Out) : nat :=
  List.length (List.filter (fun m => String.eqb (fst m) stream) out).

(** A remote account for the sync walk: campaign 10 has ad group 100, which
    has ad 1000; campaign 20 has no ad group, and the SDK answers with an
    empty text for it. *)
Definition demo_entity (id : Z) (label : string) : Py :=
  PSObject [("Id", PInt id); ("Name", PStr label)].

Definition demo_create_sdk_client (service : string) (customer_id account_id : Py)
  : result unit := Ok tt.

Definition demo_GetAccount (client : unit) (account_id : Py) : result Py :=
  Ok (demo_entity 1 "account").

Definition demo_GetCampaignsByAccountId (client : unit) (account_id : Py) : result Py :=
  Ok (PSObject [("Campaign", PList [demo_entity 10 "first"; demo_entity 20 "second"])]).

Definition demo_GetAdGroupsByCampaignId (client : unit) (campaign_id : Py) : result Py :=
  match campaign_id with
  | PInt 10 => Ok (PSObject [("AdGroup", PList [demo_entity 100 "group"])])
  | PInt 20 => Ok (PStr "")
  | _ => Raise RemoteError
  end.

Definition demo_GetAdsByAdGroupId (client : unit) (ad_group_id : Py) : result Py :=
  match ad_group_id with
  | PList [PInt 100] => Ok (PSObject [("Ad", PList [demo_entity 1000 "ad"])])
  | _ => Raise RemoteError
  end.

(** A campaign with two ad groups. *)
Definition demo_two_ad_groups (client : unit) (campaign_id : Py) : result Py :=
  Ok (PSObject [("AdGroup", PList [demo_entity 100 "one"; demo_entity 101 "two"])]).

Definition demo_strftime (t : Z) : string := "2020-01-01T00:00:00.000000Z".

(** ** Stream definitions and discovery *)

(** [replication_key] is [None] or a string; the empty string is false in
    [if replication_key:]. *)
Definition get_stream_def (stream_name : string) (pks : list string) (schema : Py)
    (replication_key : option string) : Py :=
  let stream_def :=
    [("tap_stream_id", PStr stream_name);
     ("stream", PStr stream_name);
     ("key_properties", PList (map PStr pks));
     ("schema", schema);
     ("replication_method", PStr "FULL_TABLE")] in
  match replication_key with
  | Some ((String _ _) as k) =>
      PDict (dict_set "replication_method" (PStr "INCREMENTAL")
               (dict_set "replication_key" (PStr k) stream_def))
  | _ => PDict stream_def
  end.

(** [type_map[k]]: the dict held by the map, as a reference. *)
Definition type_map_getitem (type_map : TypeMap) (k : string) : result Py :=
  match dict_get k type_map with
  | Some l => Ok (PRef l)
  | None => Raise KeyError
  end.

Section Discover.

(** [ServiceClient(service)] with its [soap_client.sd[0].types], and
    [json.dump(..., sys.stdout, indent=2)].  Each service has its own type
    map, so a stream definition goes to [json.dump] with the store in which
    its schema reference is read. *)
Variable service_types : string -> result (list SchemaObject).
Variable json_dump : list (Py * list Py) -> result unit.

Definition discover_core_objects : result unit :=
  types ← service_types "CustomerManagementService";
  '(type_map, h) ← get_type_map types;
  account_schema ← type_map_getitem type_map "Account";
  let streams := [(get_stream_def "accounts" ["Id"] account_schema None, h)] in
  types ← service_types "CampaignManagementService";
  '(type_map, h) ← get_type_map types;
  campaign_schema ← type_map_getitem type_map "Campaign";
  let streams := streams ++ [(get_stream_def "campaigns" ["Id"] campaign_schema None, h)] in
  ad_group_schema ← type_map_getitem type_map "AdGroup";
  let streams := streams ++ [(get_stream_def "ad_groups" ["Id"] ad_group_schema None, h)] in
  ad_schema ← type_map_getitem type_map "Ad";
  let streams := streams ++ [(get_stream_def "ads" ["Id"] ad_schema None, h)] in
  json_dump streams.

Definition discover_reports : result unit := Ok tt.

Definition do_discover : result unit :=
  _ ← discover_core_objects;
  discover_reports.

End Discover.

(** ** Entry point *)

(** [s.split(",")] *)
Fixpoint split_on (sep : ascii) (s : string) : list string :=
  match s with
  | EmptyString => [EmptyString]
  | String c rest =>
      if Ascii.eqb c sep then EmptyString :: split_on sep rest
      else
        match split_on sep rest with
        | x :: xs => String c x :: xs
        | [] => [String c EmptyString]
        end
  end.

(** [",".join(parts)] *)
Fixpoint join_with (sep : ascii) (parts : list string) : string :=
  match parts with
  | [] => EmptyString
  | [x] => x
  | x :: rest => x +:+ String sep (join_with sep rest)
  end.

(** [v.split(",")]: only a string has the method. *)
Definition py_split_comma (v : Py) : result (list Py) :=
  match v with
  | PStr s => Ok (map PStr (split_on "," s))
  | _ => Raise AttributeError
  end.

(** What [utils.parse_args] returns: the config, the [--discover] flag, and
    the catalog, [None] or the [stream] of each of its entries. *)
Record Args : Type := {
  config : dict Py;
  discover : bool;
  catalog : option (list string)
}.

(** The three ways [main_impl] ends, named by what it logs. *)
Inductive MainResult : Type :=
| DiscoveryComplete
| SyncCompleted
| NoCatalogProvided.

Section Main.

Variable Client : Type.
Variable create_sdk_client : string -> Py -> Py -> result Client.
Variable GetAccount : Client -> Py -> result Py.
Variable GetCampaignsByAccountId : Client -> Py -> result Py.
Variable GetAdGroupsByCampaignId : Client -> Py -> result Py.
Variable GetAdsByAdGroupId : Client -> Py -> result Py.
Variable strftime : Z -> string.
Variable service_types : string -> result (list SchemaObject).
Variable json_dump : list (Py * list Py) -> result unit.

(** [CONFIG] is the config of [args] once [CONFIG.update(args.config)] has
    run on the empty dict. *)
Definition main_impl (args : Args) : M MainResult :=
  account_ids_value ← lift (py_getitem (PDict (config args)) "account_ids");
  account_ids ← lift (py_split_comma account_ids_value);
  if discover args then
    _ ← lift (do_discover service_types json_dump);
    mret DiscoveryComplete
  else
    match catalog args with
    | Some selected_streams =>
        customer_id ← lift (py_getitem (PDict (config args)) "customer_id");
        _ ← do_sync_all_accounts Client create_sdk_client GetAccount
              GetCampaignsByAccountId GetAdGroupsByCampaignId GetAdsByAdGroupId
              strftime customer_id account_ids selected_streams;
        mret SyncCompleted
    | None => mret NoCatalogProvided
    end.

End Main.

(** ** Notions for the further properties *)

(** A value without suds objects and without [datetime]s, at any depth. *)
Fixpoint plain (v : Py) : bool :=
  match v with
  | PSObject _ => false
  | PDatetime _ => false
  | PList l => forallb plain l
  | PDict d => forallb (fun kv => plain (snd kv)) d
  | _ => true
  end.

(** An SDK response as suds builds it: the attributes of an object are
    objects, lists of objects or of plain values, [datetime]s, or plain
    values. *)
Fixpoint suds_shaped (v : Py) : bool :=
  match v with
  | PSObject items =>
      forallb (fun kv =>
                 match snd kv with
                 | PSObject _ => suds_shaped (snd kv)
                 | PList l => forallb suds_shaped l
                 | PDatetime _ => true
                 | x => plain x
                 end) items
  | _ => plain v
  end.

(** Following [fields] from [obj] meets a value without [get] while a
    field remains: [obj] itself is not a dict, [None] included, or the first
    field is present in the dict [obj] with a value other than [None], and
    following the remaining fields from that value meets one. *)
Inductive stuck : list string -> Py -> Prop :=
| stuck_here (field : string) (rest : list string) (obj : Py) :
    (forall d, obj <> PDict d) ->
    stuck (field :: rest) obj
| stuck_later (field : string) (rest : list string) (d : dict Py) (v : Py) :
    dict_get field d = Some v ->
    v <> PNone ->
    stuck rest v ->
    stuck (field :: rest) (PDict d).

Definition is_lower_string (s : string) : bool :=
  forallb is_lower (list_ascii_of_string s).

(** The first character of [s], if any, is not in [a-z]. *)
Definition no_lower_head (s : string) : bool :=
  match s with
  | EmptyString => true
  | String c _ => negb (is_lower c)
  end.

Definition json_types : list string := ["boolean"; "number"; "integer"; "string"].

(** A response whose single account has no [a:Id]. *)
Definition example_request_no_id (action : string) (params : list Py) : result Py :=
  if String.eqb action "GetCustomersInfo" then
    Ok (nested customer_id_path (PStr "42"))
  else
    Ok (nested account_info_path (PDict [("a:Name", PStr "Contoso")])).

(** A service declaring the named entities, each with an [Id]. *)
Definition entity_type (n : string) : SchemaObject :=
  complex_type n [typed_element "Id" "long" XMLSchema_ns false].

Definition demo_service_types (service : string) : result (list SchemaObject) :=
  if String.eqb service "CustomerManagementService" then Ok [entity_type "Account"]
  else Ok [entity_type "Ad"; entity_type "AdGroup"; entity_type "Campaign"].

(** The campaign service without [Ad]. *)
Definition demo_service_types_no_ad (service : string) : result (list SchemaObject) :=
  if String.eqb service "CustomerManagementService" then Ok [entity_type "Account"]
  else Ok [entity_type "AdGroup"; entity_type "Campaign"].

Definition demo_json_dump (catalog : list (Py * list Py)) : result unit := Ok tt.

Definition entity_store (names : list string) : list Py :=
  map (fun _ => object_schema [("Id", PDict [("type", PList [PStr "integer"])])]) names.

(** [sep not in part] *)
Definition no_separator (sep : ascii) (part : string) : bool :=
  negb (existsb (Ascii.eqb sep) (list_ascii_of_string part)).

Definition demo_args (ids : Py) (d : bool) (c : option (list string)) : Args :=
  {| config := [("customer_id", PStr "customer"); ("account_ids", ids)];
     discover := d; catalog := c |}.

(** An account without campaigns, and one whose campaigns come without
    [Id]. *)
Definition demo_no_campaigns (client : unit) (account_id : Py) : result Py :=
  Ok (PStr "").

Definition demo_campaigns_without_id (client : unit) (account_id : Py) : result Py :=
  Ok (PSObject [("Campaign", PList [PSObject [("Name", PStr "first")];
                                    PSObject [("Name", PStr "second")]])]).

(** A campaign with a [datetime] inside a list, between two campaigns
    without. *)
Definition demo_undecoded_campaign : Py :=
  PSObject [("Id", PInt 20); ("Dates", PList [PDatetime 0])].

Definition demo_campaigns_undecoded (client : unit) (account_id : Py) : result Py :=
  Ok (PSObject [("Campaign", PList [demo_entity 10 "first"; demo_undecoded_campaign;
                                    demo_entity 30 "third"])]).

(** A response with a text where the accounts are expected. *)
Definition example_request_text (action : string) (params : list Py) : result Py :=
  if String.eqb action "GetCustomersInfo" then
    Ok (nested customer_id_path (PStr "42"))
  else
    Ok (nested account_info_path (PStr "Contoso")).

(** * Properties *)

(** ** Scalar mapper *)

(** C5, as the specification states it, fails on [int]: an integral type of
    XML Schema other than [long] is mapped to [string], not to [integer]. *)
Lemma xml_to_json_type_int_is_string :
  In "int" xsd_integral_types /\
  xml_to_json_type "int" = "string" /\
  xml_to_json_type "int" <> "integer".
Proof.
  split; [simpl; tauto|]. split; [reflexivity|discriminate].
Qed.

(** C5 (amended): [xml_to_json_type] answers for every type name;
    [boolean] gives [boolean]; [decimal], [float] and [double] give [number];
    [long], and no other name, gives [integer]; [dateTime], [date] and every
    other name give [string]. *)
Theorem xml_to_json_type_cases (t : string) :
  (xml_to_json_type t = "boolean" <-> t = "boolean") /\
  (xml_to_json_type t = "number" <-> t = "decimal" \/ t = "float" \/ t = "double") /\
  (xml_to_json_type t = "integer" <-> t = "long") /\
  (xml_to_json_type t = "string" <->
     t <> "boolean" /\ t <> "decimal" /\ t <> "float" /\ t <> "double" /\ t <> "long") /\
  xml_to_json_type "dateTime" = "string" /\ xml_to_json_type "date" = "string".
Proof.
  unfold xml_to_json_type; simpl.
  destruct (String.eqb_spec t "boolean") as [->|Hb]; simpl.
  { repeat split; intros; try discriminate; try tauto;
      repeat match goal with H : _ \/ _ |- _ => destruct H end; discriminate. }
  destruct (String.eqb_spec t "decimal") as [->|Hd]; simpl.
  { repeat split; intros; try discriminate; try tauto. }
  destruct (String.eqb_spec t "float") as [->|Hf]; simpl.
  { repeat split; intros; try discriminate; try tauto. }
  destruct (String.eqb_spec t "double") as [->|Hdo]; simpl.
  { repeat split; intros; try discriminate; try tauto. }
  destruct (String.eqb_spec t "long") as [->|Hl]; simpl.
  { repeat split; intros; try discriminate; try tauto. }
  destruct (String.eqb t "dateTime" || (String.eqb t "date" || false));
    repeat split; intros; try discriminate; try tauto.
Qed.

Lemma xml_to_json_type_cases_witness :
  xml_to_json_type "unsignedInt" <> "integer".
Proof.
  intros H. apply (proj1 (proj1 (proj2 (proj2 (xml_to_json_type_cases "unsignedInt"))))) in H.
  discriminate H.
Defined.

(** ** Shape inferencer *)

Lemma element_property_typed (e : SchemaObject) (t ns : string) :
  root_name e <> "enumeration" ->
  type e = Some (t, ns) ->
  element_property e =
    if String.eqb ns XMLSchema_ns then get_json_schema e
    else if str_contains "ArrayOfstring" t then get_array_type t
    else Ok (PStr t).
Proof.
  intros Hroot Htype. unfold element_property.
  apply String.eqb_neq in Hroot. rewrite Hroot, Htype. simpl.
  destruct (String.eqb ns XMLSchema_ns); reflexivity.
Qed.

(** C6: a nillable element of built-in type [dateTime] gets the fragment
    [{type: [null, string], format: date-time}], with [null] first; this is
    what [get_json_schema] returns and what the loop of
    [wsdl_type_to_schema] stores for the element. *)
Theorem nillable_dateTime_schema (e : SchemaObject) :
  nillable e = true ->
  root_name e <> "simpleType" ->
  type e = Some ("dateTime", XMLSchema_ns) ->
  get_json_schema e = Ok nillable_dateTime_fragment /\
  element_property e = Ok nillable_dateTime_fragment.
Proof.
  intros Hnil Hroot Htype.
  assert (Hg : get_json_schema e = Ok nillable_dateTime_fragment).
  { unfold get_json_schema. apply String.eqb_neq in Hroot.
    rewrite Hnil, Hroot, Htype. reflexivity. }
  split; [exact Hg|].
  unfold element_property.
  destruct (String.eqb (root_name e) "enumeration"); [exact Hg|].
  rewrite Htype. simpl. exact Hg.
Qed.

Lemma nillable_dateTime_schema_witness :
  let e := typed_element "LastModifiedTime" "dateTime" XMLSchema_ns true in
  get_json_schema e = Ok nillable_dateTime_fragment /\
  element_property e = Ok nillable_dateTime_fragment.
Proof.
  intros e. apply (nillable_dateTime_schema e).
  - reflexivity.
  - simpl. discriminate.
  - reflexivity.
Defined.

(** C2, as the specification states it, fails on [ArrayOflong]: the name
    matches the pattern [ArrayOf<scalar>] with scalar [long], the namespace is
    not the built-in one, and the property is the placeholder string, not an
    array of [integer]. *)
Lemma ArrayOflong_is_placeholder :
  array_type_match "ArrayOflong" = Some "long" /\
  type array_of_long_child = Some ("ArrayOflong", arrays_ns) /\
  arrays_ns <> XMLSchema_ns /\
  element_property array_of_long_child = Ok (PStr "ArrayOflong") /\
  element_property array_of_long_child <> Ok (array_fragment (xml_to_json_type "long")).
Proof.
  repeat split; try reflexivity; discriminate.
Qed.

Lemma ArrayOfstring_prefix (rest : string) :
  str_contains "ArrayOfstring" ("ArrayOfstring" +:+ rest) = true /\
  get_array_type ("ArrayOfstring" +:+ rest) = Ok (array_fragment "string").
Proof.
  split.
  - simpl. destruct rest; reflexivity.
  - unfold get_array_type, array_type_match. simpl.
    reflexivity.
Qed.

(** C2 (amended): for a child whose type [t] is in a namespace other than
    the built-in one, the gate is the substring [ArrayOfstring].  Without
    it the property is the placeholder string [t], whatever else [t] looks
    like.  With it, and [t] matching [ArrayOf<scalar>] at its start, the
    property is the array fragment whose items are the scalar mapping of
    [<scalar>]; for a name that begins with [ArrayOfstring] that is an array
    of [string]. *)
Theorem non_builtin_child_property (e : SchemaObject) (t ns : string) :
  root_name e <> "enumeration" ->
  type e = Some (t, ns) ->
  ns <> XMLSchema_ns ->
  (str_contains "ArrayOfstring" t = false -> element_property e = Ok (PStr t)) /\
  (forall tok, str_contains "ArrayOfstring" t = true ->
     array_type_match t = Some tok ->
     element_property e = Ok (array_fragment (xml_to_json_type tok))) /\
  (forall rest, t = "ArrayOfstring" +:+ rest ->
     element_property e = Ok (array_fragment "string")).
Proof.
  intros Hroot Htype Hns.
  rewrite (element_property_typed e t ns Hroot Htype).
  apply String.eqb_neq in Hns. rewrite Hns.
  repeat split.
  - intros ->. reflexivity.
  - intros tok -> Hm. unfold get_array_type. rewrite Hm. reflexivity.
  - intros rest ->. destruct (ArrayOfstring_prefix rest) as [-> ->]. reflexivity.
Qed.

Lemma non_builtin_child_property_witness :
  element_property (typed_element "Owner" "Person" bingads_ns false) = Ok (PStr "Person") /\
  element_property (typed_element "Tags" "ArrayOfstring" arrays_ns true)
    = Ok (array_fragment "string").
Proof.
  split.
  - refine (proj1 (non_builtin_child_property
             (typed_element "Owner" "Person" bingads_ns false) "Person" bingads_ns
             _ _ _) _);
      [simpl; discriminate | reflexivity | discriminate | reflexivity].
  - refine (proj2 (proj2 (non_builtin_child_property
             (typed_element "Tags" "ArrayOfstring" arrays_ns true)
             "ArrayOfstring" arrays_ns _ _ _)) "" _);
      [simpl; discriminate | reflexivity | discriminate | reflexivity].
Defined.

(** No child without a [type] gets an enumeration fragment: it is a
    placeholder when it has a [ref], and an exception otherwise. *)
Lemma untyped_child_property (e : SchemaObject) :
  type e = None ->
  element_property e = Raise TypeError \/
  exists r, element_property e = Ok (PStr r).
Proof.
  intros Htype. unfold element_property.
  destruct (String.eqb_spec (root_name e) "enumeration") as [Hr|Hr].
  - left. unfold get_json_schema. rewrite Hr, Htype. reflexivity.
  - rewrite Htype. simpl. destruct (ref e) as [[r ns]|]; simpl.
    + right. exists r. reflexivity.
    + left. reflexivity.
Qed.

Lemma untyped_status_never_enum (status : SchemaObject) :
  type status = None ->
  wsdl_type_to_schema (account_type status) <> Ok account_fragment.
Proof.
  intros Htype. unfold wsdl_type_to_schema. simpl.
  destruct (untyped_child_property status Htype) as [H|[r H]]; rewrite H; simpl.
  - discriminate.
  - unfold account_fragment, object_schema, account_properties.
    destruct (String.eqb (name status) "Id"); [discriminate|].
    destruct (String.eqb (name status) "Name"); discriminate.
Qed.

(** With [Status] typed by a simple type of the service, discovery gives
    the [Account] dict of the example, its [Status] property holding the
    dict of the simple type. *)
Lemma account_named_status_resolves :
  get_type_map [account_type status_named_element;
                simple_type "Status" ["Active"; "Paused"]]
  = Ok ([("Account", 0); ("Status", 1)],
        [object_schema (account_properties (PRef 1)); status_fragment]).
Proof. reflexivity. Qed.

(** C4: on the [Account] type of the example the shape inferencer raises
    [TypeError] instead of returning the fragment, both when [Status] is an
    element with an inline simple type and when it is a child rooted at an
    [enumeration] node: [get_json_schema] builds an [enum] only for a node
    rooted at [simpleType], and the loop reads [type] of a child that has
    none. *)
Theorem account_inline_enumeration_raises :
  wsdl_type_to_schema (account_type status_inline_element) = Raise TypeError /\
  wsdl_type_to_schema (account_type status_enumeration_child) = Raise TypeError /\
  get_json_schema status_enumeration_child = Raise TypeError /\
  get_json_schema (simple_type "Status" ["Active"; "Paused"]) = Ok status_fragment.
Proof. repeat split. Qed.

(** ** Dicts *)

Section DictLemmas.

Context {V : Type}.
Implicit Types (d : dict V) (k : string) (v : V).

Lemma dict_get_set_eq k v d : dict_get k (dict_set k v d) = Some v.
Proof.
  induction d as [|[k' v'] d IH]; csimpl.
  - rewrite String.eqb_refl. reflexivity.
  - destruct (String.eqb k k') eqn:E; csimpl; rewrite E; [reflexivity|exact IH].
Qed.

Lemma dict_get_set_ne k k' v d :
  k <> k' -> dict_get k' (dict_set k v d) = dict_get k' d.
Proof.
  intros Hne. induction d as [|[k0 v0] d IH]; csimpl.
  - apply String.eqb_neq in Hne. rewrite String.eqb_sym, Hne. reflexivity.
  - destruct (String.eqb_spec k k0) as [->|Hk]; csimpl.
    + assert (E : String.eqb k' k0 = false) by (apply String.eqb_neq; congruence).
      rewrite E. reflexivity.
    + rewrite IH. reflexivity.
Qed.

Lemma dict_set_set k v1 v2 d : dict_set k v2 (dict_set k v1 d) = dict_set k v2 d.
Proof.
  induction d as [|[k' v'] d IH]; csimpl.
  - rewrite String.eqb_refl. reflexivity.
  - destruct (String.eqb k k') eqn:E; csimpl; rewrite E; [reflexivity|].
    rewrite IH. reflexivity.
Qed.

Lemma dict_set_id k v d : dict_get k d = Some v -> dict_set k v d = d.
Proof.
  induction d as [|[k' v'] d IH]; csimpl; [discriminate|].
  destruct (String.eqb k k'); intros H.
  - injection H as ->. reflexivity.
  - rewrite (IH H). reflexivity.
Qed.

Lemma dict_get_fresh k d : k ∉ d.*1 -> dict_get k d = None.
Proof.
  induction d as [|[k' v'] d IH]; csimpl; [reflexivity|].
  intros Hk. apply not_elem_of_cons in Hk as [Hne Hk]. csimpl in Hne.
  apply String.eqb_neq in Hne. rewrite Hne. exact (IH Hk).
Qed.

Lemma dict_set_middle k v v0 (pre rest : dict V) :
  k ∉ pre.*1 ->
  dict_set k v (pre ++ (k, v0) :: rest) = pre ++ (k, v) :: rest.
Proof.
  induction pre as [|[k' v'] pre IH]; csimpl; intros Hk.
  - rewrite String.eqb_refl. reflexivity.
  - apply not_elem_of_cons in Hk as [Hne Hk]. csimpl in Hne.
    apply String.eqb_neq in Hne. rewrite Hne, (IH Hk). reflexivity.
Qed.

Lemma dict_set_keys k v d :
  (dict_set k v d).*1 = if dict_mem k d then d.*1 else d.*1 ++ [k].
Proof.
  unfold dict_mem. induction d as [|[k' v'] d IH]; csimpl; [reflexivity|].
  destruct (String.eqb k k'); csimpl; [reflexivity|].
  rewrite IH. destruct (dict_get k d); reflexivity.
Qed.

Lemma dict_set_keys_NoDup k v d : NoDup d.*1 -> NoDup (dict_set k v d).*1.
Proof.
  intros Hd. rewrite dict_set_keys. unfold dict_mem.
  destruct (dict_get k d) eqn:E; [exact Hd|].
  apply NoDup_app. split; [exact Hd|]. split.
  - intros x Hx Hx'. apply list_elem_of_singleton in Hx' as ->.
    clear Hd. induction d as [|[k' v'] d IH]; csimpl in *.
    + inversion Hx.
    + destruct (String.eqb_spec k k') as [->|Hne]; [discriminate|].
      apply elem_of_cons in Hx as [Hx|Hx]; [congruence|]. exact (IH E Hx).
  - apply NoDup_singleton.
Qed.

Lemma dict_get_elem_of k v d : dict_get k d = Some v -> v ∈ d.*2.
Proof.
  induction d as [|[k' v'] d IH]; csimpl; [discriminate|].
  rewrite elem_of_cons.
  destruct (String.eqb k k'); intros H.
  - injection H as ->. left. reflexivity.
  - right. exact (IH H).
Qed.

Lemma dict_set_values x k v d : x ∈ (dict_set k v d).*2 -> x = v \/ x ∈ d.*2.
Proof.
  induction d as [|[k' v'] d IH]; csimpl; intros Hx.
  - apply list_elem_of_singleton in Hx. left. exact Hx.
  - rewrite elem_of_cons.
    destruct (String.eqb k k'); csimpl in Hx; apply elem_of_cons in Hx as [Hx|Hx].
    + left. exact Hx.
    + right. right. exact Hx.
    + right. left. exact Hx.
    + destruct (IH Hx) as [H|H]; [left; exact H|right; right; exact H].
Qed.

Lemma dict_set_values_NoDup k v d :
  NoDup d.*2 -> v ∉ d.*2 -> NoDup (dict_set k v d).*2.
Proof.
  induction d as [|[k' v'] d IH]; csimpl; intros Hd Hv.
  - apply NoDup_singleton.
  - apply NoDup_cons in Hd as [Hv' Hd]. apply not_elem_of_cons in Hv as [Hne Hv].
    destruct (String.eqb k k'); csimpl; apply NoDup_cons.
    + split; [exact Hv|exact Hd].
    + split; [|exact (IH Hd Hv)].
      intros Hin. apply dict_set_values in Hin as [->|Hin]; [congruence|contradiction].
Qed.

End DictLemmas.

(** ** Type map resolver *)

Section Resolver.

Variable type_map : TypeMap.

Lemma resolve_properties_get (prop : string) (props : dict Py) :
  dict_get prop (resolve_properties type_map props)
  = resolve_descriptor type_map <$> dict_get prop props.
Proof.
  induction props as [|[k v] props IH]; simpl; [reflexivity|].
  destruct (String.eqb prop k); [reflexivity|exact IH].
Qed.

Lemma resolve_properties_keys (props : dict Py) :
  (resolve_properties type_map props).*1 = props.*1.
Proof.
  induction props as [|[k v] props IH]; csimpl; [reflexivity|].
  f_equal. exact IH.
Qed.

(** One turn of the loop of [fill_in_nested_types], as a write of the whole
    dict at [l]. *)
Lemma fill_step (l : loc) (h : Heap) (schema : dict Py) (pre rest : dict Py)
    (prop : string) (descriptor : Py) :
  h !! l = Some (PDict schema) ->
  dict_get "properties" schema = Some (PDict (pre ++ (prop, descriptor) :: rest)) ->
  prop ∉ pre.*1 ->
  match descriptor with
  | PStr d =>
      match dict_get d type_map with
      | Some target => set_property l prop (PRef target) h
      | None => h
      end
  | _ => h
  end
  = <[l := PDict (dict_set "properties"
                    (PDict (pre ++ (prop, resolve_descriptor type_map descriptor) :: rest))
                    schema)]> h.
Proof.
  intros Hl Hprops Hfresh.
  assert (Hsame :
    h = <[l := PDict (dict_set "properties"
                        (PDict (pre ++ (prop, descriptor) :: rest)) schema)]> h).
  { rewrite (dict_set_id _ _ _ Hprops). symmetry. apply list_insert_id. exact Hl. }
  destruct descriptor; simpl; try exact Hsame.
  destruct (dict_get s type_map) as [target|]; [|exact Hsame].
  unfold set_property. rewrite Hl, Hprops.
  rewrite (dict_set_middle _ _ _ _ _ Hfresh). reflexivity.
Qed.

Lemma fill_items_spec (l : loc) (items pre : dict Py) (h : Heap) (schema : dict Py) :
  h !! l = Some (PDict schema) ->
  dict_get "properties" schema = Some (PDict (pre ++ items)) ->
  NoDup (pre ++ items).*1 ->
  fill_items type_map l items h
  = <[l := PDict (dict_set "properties"
                    (PDict (pre ++ resolve_properties type_map items)) schema)]> h.
Proof.
  revert pre h schema.
  induction items as [|[prop descriptor] rest IH]; intros pre h schema Hl Hprops Hnd.
  - simpl. rewrite (dict_set_id _ _ _ Hprops). symmetry. apply list_insert_id. exact Hl.
  - assert (Hfresh : prop ∉ pre.*1).
    { rewrite fmap_app in Hnd. apply NoDup_app in Hnd as (_ & Hdisj & _).
      intros Hin. apply (Hdisj _ Hin). csimpl. left. }
    cbn [fill_items]. rewrite (fill_step l h schema pre rest prop descriptor Hl Hprops Hfresh).
    set (v := resolve_descriptor type_map descriptor).
    set (schema1 := dict_set "properties" (PDict (pre ++ (prop, v) :: rest)) schema).
    assert (Hlt : (l < List.length h)%nat) by (eapply lookup_lt_Some; exact Hl).
    rewrite (IH (pre ++ [(prop, v)]) (<[l := PDict schema1]> h) schema1).
    + rewrite list_insert_insert_eq. unfold schema1. rewrite dict_set_set.
      rewrite <- app_assoc. reflexivity.
    + apply list_lookup_insert_eq. exact Hlt.
    + unfold schema1. rewrite dict_get_set_eq, <- app_assoc. reflexivity.
    + rewrite <- app_assoc. rewrite !fmap_app in *. exact Hnd.
Qed.

Lemma fill_in_nested_types_spec (l : loc) (h : Heap) (schema props : dict Py) :
  h !! l = Some (PDict schema) ->
  dict_get "properties" schema = Some (PDict props) ->
  NoDup props.*1 ->
  fill_in_nested_types type_map l h
  = Ok (<[l := resolve_schema type_map (PDict schema)]> h).
Proof.
  intros Hl Hprops Hnd. unfold fill_in_nested_types, resolve_schema.
  rewrite Hl, Hprops. f_equal.
  apply (fill_items_spec l props [] h schema Hl Hprops Hnd).
Qed.

Lemma second_pass_spec (items : dict loc) (h : Heap) :
  NoDup items.*2 ->
  (forall l, l ∈ items.*2 -> exists cell, h !! l = Some cell /\ schema_wf cell) ->
  exists h',
    second_pass type_map items h = Ok h' /\
    List.length h' = List.length h /\
    (forall l, l ∈ items.*2 -> h' !! l = resolve_schema type_map <$> h !! l) /\
    (forall l, l ∉ items.*2 -> h' !! l = h !! l).
Proof.
  revert h. induction items as [|[n l] rest IH]; intros h Hnd Hwf.
  - exists h. split; [reflexivity|]. split; [reflexivity|]. split.
    + intros l Hl. inversion Hl.
    + intros; reflexivity.
  - csimpl in Hnd. csimpl in Hwf. apply NoDup_cons in Hnd as [Hfresh Hnd].
    destruct (Hwf l) as (cell & Hl & schema & -> & Hshape); [left|].
    assert (Hstep : exists h1,
      (second_pass type_map ((n, l) :: rest) h = second_pass type_map rest h1) /\
      h1 = <[l := resolve_schema type_map (PDict schema)]> h).
    { cbn [second_pass]. rewrite Hl. unfold dict_mem.
      destruct Hshape as [Hnone|(props & Hprops & Hpnd)].
      - rewrite Hnone. exists h. split; [reflexivity|].
        unfold resolve_schema. rewrite Hnone. symmetry. apply list_insert_id. exact Hl.
      - rewrite Hprops.
        rewrite (fill_in_nested_types_spec l h schema props Hl Hprops Hpnd).
        eexists. split; reflexivity. }
    destruct Hstep as (h1 & -> & ->).
    assert (Hlt : (l < List.length h)%nat) by (eapply lookup_lt_Some; exact Hl).
    destruct (IH (<[l := resolve_schema type_map (PDict schema)]> h) Hnd)
      as (h' & Hrun & Hlen & Hin & Hout).
    { intros l' Hl'. destruct (Hwf l') as (cell & Hc & Hcwf); [right; exact Hl'|].
      exists cell. split; [|exact Hcwf].
      rewrite list_lookup_insert_ne; [exact Hc|]. intros ->. contradiction. }
    exists h'. split; [exact Hrun|]. split; [rewrite Hlen; apply length_insert|]. split.
    + intros l' Hl'. csimpl in Hl'. apply elem_of_cons in Hl' as [->|Hl'].
      * rewrite (Hout l Hfresh), Hl. apply list_lookup_insert_eq. exact Hlt.
      * rewrite (Hin l' Hl'). rewrite list_lookup_insert_ne; [reflexivity|].
        intros ->. contradiction.
    + intros l' Hl'. csimpl in Hl'. apply not_elem_of_cons in Hl' as [Hne Hl'].
      rewrite (Hout l' Hl'). apply list_lookup_insert_ne. congruence.
Qed.

End Resolver.

Lemma get_json_schema_wf (e : SchemaObject) (s : Py) :
  get_json_schema e = Ok s -> schema_wf s.
Proof.
  unfold get_json_schema. intros H.
  destruct (String.eqb (root_name e) "simpleType").
  - destruct (first (rawchildren e)) as [r|]; [|discriminate H].
    simpl in H. injection H as <-.
    destruct (rawchildren r); eexists; (split; [reflexivity|left; reflexivity]).
  - destruct (subscript0 (type e)) as [t|]; [|discriminate H].
    simpl in H. injection H as <-.
    destruct (String.eqb t "dateTime" || (String.eqb t "date" || false));
      eexists; (split; [reflexivity|left; reflexivity]).
Qed.

Lemma build_properties_NoDup (elements : list SchemaObject) (props props' : dict Py) :
  NoDup props.*1 ->
  build_properties elements props = Ok props' ->
  NoDup props'.*1.
Proof.
  revert props. induction elements as [|e rest IH]; intros props Hnd H; simpl in H.
  - injection H as <-. exact Hnd.
  - destruct (element_property e) as [v|]; [|discriminate H]. simpl in H.
    apply (IH _ (dict_set_keys_NoDup _ v _ Hnd) H).
Qed.

Lemma wsdl_type_to_schema_wf (t : SchemaObject) (s : Py) :
  wsdl_type_to_schema t = Ok s -> schema_wf s.
Proof.
  unfold wsdl_type_to_schema.
  destruct (String.eqb (root_name t) "simpleType"); [apply get_json_schema_wf|].
  destruct (first (rawchildren t)) as [c|]; [|discriminate]. simpl.
  destruct (build_properties (rawchildren c) []) as [props|] eqn:E; [|discriminate].
  simpl. intros H. injection H as <-.
  eexists. split; [reflexivity|]. right. exists props. split; [reflexivity|].
  apply (build_properties_NoDup (rawchildren c) [] props); [constructor|exact E].
Qed.

(** The type map after pass 1 names distinct, allocated locations, and
    every dict of the store is one that [wsdl_type_to_schema] built. *)
Lemma first_pass_inv (types : list SchemaObject) (tm tm' : TypeMap) (h h' : Heap) :
  NoDup tm.*2 ->
  (forall l, l ∈ tm.*2 -> (l < List.length h)%nat) ->
  Forall schema_wf h ->
  first_pass types tm h = Ok (tm', h') ->
  NoDup tm'.*2 /\
  (forall l, l ∈ tm'.*2 -> (l < List.length h')%nat) /\
  Forall schema_wf h'.
Proof.
  revert tm h. induction types as [|t rest IH]; intros tm h Hnd Hlt Hwf H; simpl in H.
  - injection H as <- <-. auto.
  - destruct (in_service_namespace (snd (qname t))); simpl in H.
    + destruct (wsdl_type_to_schema t) as [s|] eqn:Es; [|discriminate H]. simpl in H.
      apply IH in H; [exact H| | |].
      * apply dict_set_values_NoDup; [exact Hnd|]. intros Hin. apply Hlt in Hin. lia.
      * intros l Hl. rewrite length_app. simpl.
        apply dict_set_values in Hl as [->|Hl]; [lia|]. apply Hlt in Hl. lia.
      * apply Forall_app. split; [exact Hwf|]. constructor; [|constructor].
        exact (wsdl_type_to_schema_wf t s Es).
    + apply IH in H; auto.
Qed.

(** Pass 2 returns, and it rewrites the dict of every mapped type into its
    resolved form, in place. *)
Lemma get_type_map_spec (types : list SchemaObject) (tm : TypeMap) (h : Heap) :
  first_pass types [] [] = Ok (tm, h) ->
  exists h',
    get_type_map types = Ok (tm, h') /\
    forall n l, dict_get n tm = Some l ->
      exists cell, h !! l = Some cell /\ h' !! l = Some (resolve_schema tm cell).
Proof.
  intros H1.
  destruct (first_pass_inv types [] tm [] h) as (Hnd & Hlt & Hwf);
    [constructor| |constructor|exact H1|].
  { intros l Hl. inversion Hl. }
  assert (Hcells : forall l, l ∈ tm.*2 -> exists cell, h !! l = Some cell /\ schema_wf cell).
  { intros l Hl. destruct (lookup_lt_is_Some_2 h l (Hlt l Hl)) as [cell Hc].
    exists cell. split; [exact Hc|].
    rewrite Forall_forall in Hwf. apply Hwf.
    eapply list_elem_of_lookup_2. exact Hc. }
  destruct (second_pass_spec tm tm h Hnd Hcells) as (h' & Hrun & _ & Hin & _).
  exists h'. split.
  - unfold get_type_map. rewrite H1. simpl. rewrite Hrun. reflexivity.
  - intros n l Hn. apply dict_get_elem_of in Hn.
    destruct (Hcells l Hn) as (cell & Hc & _). exists cell. split; [exact Hc|].
    rewrite (Hin l Hn), Hc. reflexivity.
Qed.

Lemma property_at_resolved (tm : TypeMap) (h h' : Heap) (l : loc) (cell : Py)
    (prop : string) :
  h !! l = Some cell ->
  h' !! l = Some (resolve_schema tm cell) ->
  property_at h' l prop = resolve_descriptor tm <$> property_at h l prop.
Proof.
  intros Hc Hc'. unfold property_at. rewrite Hc, Hc'.
  destruct cell; try reflexivity. unfold resolve_schema.
  destruct (dict_get "properties" d) as [v|] eqn:E.
  - destruct v; rewrite ?E; try reflexivity.
    rewrite dict_get_set_eq. apply resolve_properties_get.
  - rewrite E. reflexivity.
Qed.

(** What pass 2 does to one property of a mapped type. *)
Lemma get_type_map_property (types : list SchemaObject) (tm : TypeMap) (h h' : Heap)
    (n : string) (l : loc) (prop : string) :
  first_pass types [] [] = Ok (tm, h) ->
  get_type_map types = Ok (tm, h') ->
  dict_get n tm = Some l ->
  property_at h' l prop = resolve_descriptor tm <$> property_at h l prop.
Proof.
  intros H1 H2 Hn.
  destruct (get_type_map_spec types tm h H1) as (h0 & H2' & Hspec).
  rewrite H2 in H2'. injection H2' as <-.
  destruct (Hspec n l Hn) as (cell & Hc & Hc').
  exact (property_at_resolved tm h h' l cell prop Hc Hc').
Qed.

Lemma resolve_properties_no_placeholder (tm : TypeMap) (props : dict Py) :
  no_placeholder props -> resolve_properties tm props = props.
Proof.
  induction 1 as [|[k v] props Hv _ IH]; simpl; [reflexivity|].
  rewrite IH. destruct v; try reflexivity. exfalso. exact (Hv s eq_refl).
Qed.

(** C1, as the specification states it, fails on the chain [A], [B], [C]:
    after pass 1 the property [b] of [A] is the placeholder for [B] and the
    property [c] of [B] the placeholder for [C]; after [get_type_map] the
    property [b] of [A] is the dict of [B] itself, and that dict's [c] is
    the dict of [C], not the placeholder string. *)
Lemma chain_example_fully_resolved :
  first_pass chain_types [] [] = Ok (chain_type_map, chain_heap_pass1) /\
  property_at chain_heap_pass1 0 "b" = Some (PStr "B") /\
  property_at chain_heap_pass1 1 "c" = Some (PStr "C") /\
  get_type_map chain_types = Ok (chain_type_map, chain_heap) /\
  property_at chain_heap 0 "b" = Some (PRef 1) /\
  property_at chain_heap 1 "c" = Some (PRef 2) /\
  property_at chain_heap 1 "c" <> Some (PStr "C").
Proof.
  repeat split; try reflexivity. discriminate.
Qed.

(** C1 (amended): for types [a], [b], [c] of the type map where, after
    pass 1, a property of [a] is the placeholder for [b] and a property of
    [b] the placeholder for [c], [get_type_map] resolves the whole chain:
    the property of [a] becomes the dict of [b], which pass 2 rewrites in
    place, so that inside it the property for [c] is the dict of [c]. *)
Theorem reference_chain_resolved (types : list SchemaObject) (tm : TypeMap)
    (h h' : list Py) (a b c : string) (la lb lc : nat) (p q : string) :
  first_pass types [] [] = Ok (tm, h) ->
  get_type_map types = Ok (tm, h') ->
  dict_get a tm = Some la ->
  dict_get b tm = Some lb ->
  dict_get c tm = Some lc ->
  property_at h la p = Some (PStr b) ->
  property_at h lb q = Some (PStr c) ->
  property_at h' la p = Some (PRef lb) /\
  property_at h' lb q = Some (PRef lc).
Proof.
  intros H1 H2 Ha Hb Hc Hp Hq. split.
  - rewrite (get_type_map_property types tm h h' a la p H1 H2 Ha), Hp.
    simpl. rewrite Hb. reflexivity.
  - rewrite (get_type_map_property types tm h h' b lb q H1 H2 Hb), Hq.
    simpl. rewrite Hc. reflexivity.
Qed.

Lemma reference_chain_resolved_witness :
  property_at chain_heap 0 "b" = Some (PRef 1) /\
  property_at chain_heap 1 "c" = Some (PRef 2).
Proof.
  apply (reference_chain_resolved chain_types chain_type_map chain_heap_pass1
           chain_heap "A" "B" "C" 0 1 2 "b" "c"); reflexivity.
Defined.

(** C3: on the type map of pass 1, pass 2 does not raise; a placeholder
    naming a type absent from the map is still that string afterwards, and
    a placeholder naming a mapped type has become the map's entry, the dict
    of that type. *)
Theorem absent_reference_left_in_place (types : list SchemaObject) (tm : TypeMap)
    (h : list Py) :
  first_pass types [] [] = Ok (tm, h) ->
  exists h',
    get_type_map types = Ok (tm, h') /\
    forall n l prop d,
      dict_get n tm = Some l ->
      property_at h l prop = Some (PStr d) ->
      (dict_get d tm = None -> property_at h' l prop = Some (PStr d)) /\
      (forall target, dict_get d tm = Some target ->
         property_at h' l prop = Some (PRef target)).
Proof.
  intros H1. destruct (get_type_map_spec types tm h H1) as (h' & H2 & _).
  exists h'. split; [exact H2|].
  intros n l prop d Hn Hp.
  rewrite (get_type_map_property types tm h h' n l prop H1 H2 Hn), Hp. simpl.
  split.
  - intros ->. reflexivity.
  - intros target ->. reflexivity.
Qed.

Lemma absent_reference_left_in_place_witness :
  exists h',
    get_type_map gap_types = Ok (gap_type_map, h') /\
    property_at h' 1 "Settings" = Some (PStr "ArrayOfSetting") /\
    property_at h' 1 "Budget" = Some (PRef 0).
Proof.
  destruct (absent_reference_left_in_place gap_types gap_type_map gap_heap_pass1 eq_refl)
    as (h' & Hrun & Hprops).
  exists h'. split; [exact Hrun|]. split.
  - apply (Hprops "Campaign" 1%nat "Settings" "ArrayOfSetting"); reflexivity.
  - apply (Hprops "Campaign" 1%nat "Budget" "Budget"); reflexivity.
Defined.

Lemma resolve_object_schema_id (tm : TypeMap) (props : dict Py) :
  no_placeholder props ->
  resolve_schema tm (object_schema props) = object_schema props.
Proof.
  intros Hprops. unfold resolve_schema, object_schema. simpl.
  rewrite (resolve_properties_no_placeholder tm props Hprops). reflexivity.
Qed.

(** C7: for a service of two types, [A] with one property that is the
    placeholder for [B] and [B] without placeholders, [get_type_map] makes
    that property of [A] the dict of [B], whose content is the full object
    fragment of [B]; the dict of [B] after pass 2 is what it was after
    pass 1, and the other properties of [A] are unchanged.  This holds in
    either order of declaration. *)
Theorem two_types_resolution (A B : SchemaObject) (propsA propsB : dict Py)
    (p : string) (types : list SchemaObject) :
  types = [A; B] \/ types = [B; A] ->
  in_service_namespace (snd (qname A)) = true ->
  in_service_namespace (snd (qname B)) = true ->
  name A <> name B ->
  wsdl_type_to_schema A = Ok (object_schema propsA) ->
  wsdl_type_to_schema B = Ok (object_schema propsB) ->
  dict_get p propsA = Some (PStr (name B)) ->
  (forall q v d, q <> p -> dict_get q propsA = Some v -> v <> PStr d) ->
  no_placeholder propsB ->
  exists tm h h' la lb,
    first_pass types [] [] = Ok (tm, h) /\
    get_type_map types = Ok (tm, h') /\
    dict_get (name A) tm = Some la /\
    dict_get (name B) tm = Some lb /\
    h !! lb = Some (object_schema propsB) /\
    h' !! lb = Some (object_schema propsB) /\
    property_at h' la p = Some (PRef lb) /\
    (forall q, q <> p -> property_at h' la q = dict_get q propsA).
Proof.
  intros Horder HnsA HnsB Hne HA HB Hp Hothers HpropsB.
  assert (Hab : String.eqb (name A) (name B) = false) by (apply String.eqb_neq; exact Hne).
  assert (Hba : String.eqb (name B) (name A) = false)
    by (apply String.eqb_neq; congruence).
  assert (Hpass1 : exists tm h la lb,
    first_pass types [] [] = Ok (tm, h) /\
    dict_get (name A) tm = Some la /\ dict_get (name B) tm = Some lb /\
    h !! la = Some (object_schema propsA) /\ h !! lb = Some (object_schema propsB)).
  { destruct Horder as [-> | ->]; simpl; rewrite HnsA, HnsB, HA, HB; simpl.
    - exists [(name A, 0%nat); (name B, 1%nat)], [object_schema propsA; object_schema propsB],
        0%nat, 1%nat.
      rewrite Hba. simpl. rewrite String.eqb_refl, Hba, String.eqb_refl. auto.
    - exists [(name B, 0%nat); (name A, 1%nat)], [object_schema propsB; object_schema propsA],
        1%nat, 0%nat.
      rewrite Hab. simpl. rewrite String.eqb_refl, Hab, String.eqb_refl. auto. }
  destruct Hpass1 as (tm & h & la & lb & H1 & Hla & Hlb & Hca & Hcb).
  destruct (get_type_map_spec types tm h H1) as (h' & H2 & Hspec).
  exists tm, h, h', la, lb.
  assert (HpA : forall q, property_at h la q = dict_get q propsA).
  { intros q. unfold property_at. rewrite Hca. reflexivity. }
  repeat split; try assumption.
  - destruct (Hspec (name B) lb Hlb) as (cell & Hc & Hc').
    rewrite Hcb in Hc. injection Hc as <-.
    rewrite Hc'. rewrite (resolve_object_schema_id tm propsB HpropsB). reflexivity.
  - rewrite (get_type_map_property types tm h h' (name A) la p H1 H2 Hla).
    rewrite HpA, Hp. simpl. rewrite Hlb. reflexivity.
  - intros q Hq.
    rewrite (get_type_map_property types tm h h' (name A) la q H1 H2 Hla).
    rewrite HpA. destruct (dict_get q propsA) as [v|] eqn:E; [|reflexivity].
    simpl. f_equal. destruct v; try reflexivity.
    exfalso. exact (Hothers q (PStr s) s Hq E eq_refl).
Qed.

Lemma two_types_resolution_witness :
  exists tm h h' la lb,
    first_pass [order_type; customer_type] [] [] = Ok (tm, h) /\
    get_type_map [order_type; customer_type] = Ok (tm, h') /\
    dict_get "Order" tm = Some la /\
    dict_get "Customer" tm = Some lb /\
    h !! lb = Some (object_schema customer_properties) /\
    h' !! lb = Some (object_schema customer_properties) /\
    property_at h' la "Buyer" = Some (PRef lb) /\
    (forall q, q <> "Buyer" -> property_at h' la q = dict_get q order_properties).
Proof.
  apply (two_types_resolution order_type customer_type order_properties
           customer_properties "Buyer" [order_type; customer_type]).
  - left. reflexivity.
  - reflexivity.
  - reflexivity.
  - simpl. discriminate.
  - reflexivity.
  - reflexivity.
  - reflexivity.
  - intros q v d Hq. unfold order_properties. simpl.
    destruct (String.eqb q "Id"); [intros [= <-]; discriminate|].
    destruct (String.eqb_spec q "Buyer") as [->|_]; [contradiction|discriminate].
  - repeat constructor; simpl; discriminate.
Defined.

(** ** Sync walk *)

Lemma M_bind_lift {A B : Type} (r : result A) (a : A) (k : A -> M B) (out : Out) :
  r = Ok a -> (lift r ≫= k) out = k a out.
Proof. intros ->. reflexivity. Qed.

Lemma M_bind_run {A B : Type} (m : M A) (a : A) (k : A -> M B) (out out' : Out) :
  m out = (out', Ok a) -> (m ≫= k) out = k a out'.
Proof. intros H. unfold mbind, M_bind. rewrite H. reflexivity. Qed.

Lemma M_bind_raise {A B : Type} (m : M A) (e : exn) (k : A -> M B) (out out' : Out) :
  m out = (out', Raise e) -> (m ≫= k) out = (out', Raise e).
Proof. intros H. unfold mbind, M_bind. rewrite H. reflexivity. Qed.

Lemma write_record_serialisable (stream : string) (record : Py) (out : Out) :
  json_serialisable record = true ->
  write_record stream record out = (out ++ [(stream, record)], Ok tt).
Proof. intros H. unfold write_record. rewrite H. reflexivity. Qed.

Lemma write_record_refused (stream : string) (record : Py) (out : Out) :
  json_serialisable record = false ->
  write_record stream record out = (out, Raise TypeError).
Proof. intros H. unfold write_record. rewrite H. reflexivity. Qed.

Lemma for_each_write_record (stream : string) (records : list Py) (out : Out) :
  forallb json_serialisable records = true ->
  for_each records (write_record stream) out
  = (out ++ map (fun r => (stream, r)) records, Ok tt).
Proof.
  revert out. induction records as [|r rest IH]; intros out Hall.
  - simpl. rewrite app_nil_r. reflexivity.
  - cbn [forallb] in Hall. apply andb_prop in Hall as [Hr Hrest].
    cbn [for_each map]. unfold mbind, M_bind.
    rewrite (write_record_serialisable _ _ _ Hr), (IH _ Hrest), <- app_assoc.
    reflexivity.
Qed.

(** The loop stops at the first record that is refused: the records before
    it are written, the others are not. *)
Lemma for_each_write_record_refused (stream : string) (before : list Py) (r : Py)
    (after : list Py) (out : Out) :
  forallb json_serialisable before = true ->
  json_serialisable r = false ->
  for_each (before ++ r :: after) (write_record stream) out
  = (out ++ map (fun r => (stream, r)) before, Raise TypeError).
Proof.
  revert out. induction before as [|b rest IH]; intros out Hall Hr.
  - cbn [app for_each map]. unfold mbind, M_bind.
    rewrite (write_record_refused _ _ _ Hr), app_nil_r. reflexivity.
  - cbn [forallb] in Hall. apply andb_prop in Hall as [Hb Hrest].
    cbn [app for_each map]. unfold mbind, M_bind.
    rewrite (write_record_serialisable _ _ _ Hb), (IH _ Hrest Hr), <- app_assoc.
    reflexivity.
Qed.

Section SyncProperties.

Variable Client : Type.
Variable create_sdk_client : string -> Py -> Py -> result Client.
Variable GetAccount : Client -> Py -> result Py.
Variable GetCampaignsByAccountId : Client -> Py -> result Py.
Variable GetAdGroupsByCampaignId : Client -> Py -> result Py.
Variable GetAdsByAdGroupId : Client -> Py -> result Py.
Variable strftime : Z -> string.

Local Notation "'to_dict'" := (sobject_to_dict strftime).

Lemma to_dict_collection (key : string) (items : list Py) :
  to_dict (PSObject [(key, PList items)]) = PDict [(key, PList (map to_dict items))].
Proof. reflexivity. Qed.

Variables customer_id account_id : Py.
Variable selected_streams : list string.
Variables accounts_client client : Client.
Variables account c1 c2 g1 a1 id1 id2 gid1 r2 : Py.

Hypothesis campaigns_selected : selected "campaigns" selected_streams = true.
Hypothesis ad_groups_selected : selected "ad_groups" selected_streams = true.
Hypothesis ads_selected : selected "ads" selected_streams = true.

Hypothesis accounts_client_created :
  create_sdk_client "CustomerManagementService" customer_id account_id = Ok accounts_client.
Hypothesis account_fetched : GetAccount accounts_client account_id = Ok account.
Hypothesis client_created :
  create_sdk_client "CampaignManagementService" customer_id account_id = Ok client.

Hypothesis two_campaigns :
  GetCampaignsByAccountId client account_id
  = Ok (PSObject [("Campaign", PList [c1; c2])]).
Hypothesis c1_id : py_getitem (to_dict c1) "Id" = Ok id1.
Hypothesis c2_id : py_getitem (to_dict c2) "Id" = Ok id2.

Hypothesis c1_one_ad_group :
  GetAdGroupsByCampaignId client id1 = Ok (PSObject [("AdGroup", PList [g1])]).
Hypothesis g1_id : py_getitem (to_dict g1) "Id" = Ok gid1.
Hypothesis c2_no_ad_group : GetAdGroupsByCampaignId client id2 = Ok r2.
Hypothesis c2_no_ad_group_key : py_contains "AdGroup" (to_dict r2) = Ok false.

Hypothesis g1_one_ad :
  GetAdsByAdGroupId client (PList [gid1]) = Ok (PSObject [("Ad", PList [a1])]).

(** The decoded records are values that [json.dumps] accepts; the account
    record is written only when its stream is selected. *)
Hypothesis campaigns_serialisable :
  forallb json_serialisable [to_dict c1; to_dict c2] = true.
Hypothesis ad_group_serialisable : json_serialisable (to_dict g1) = true.
Hypothesis ad_serialisable : json_serialisable (to_dict a1) = true.
Hypothesis account_serialisable :
  selected "accounts" selected_streams = true ->
  json_serialisable (to_dict account) = true.

Lemma sync_campaigns_two (out : Out) :
  sync_campaigns Client GetCampaignsByAccountId strftime client account_id
    selected_streams out
  = (out ++ [("campaigns", to_dict c1); ("campaigns", to_dict c2)],
     Ok (Some [py_getitem (to_dict c1) "Id"; py_getitem (to_dict c2) "Id"])).
Proof.
  unfold sync_campaigns.
  rewrite (M_bind_lift _ _ _ _ two_campaigns), to_dict_collection.
  rewrite (M_bind_lift _ true _ _ eq_refl).
  rewrite (M_bind_lift _ (PList (map to_dict [c1; c2])) _ _ eq_refl).
  rewrite campaigns_selected.
  erewrite M_bind_run.
  2:{ rewrite (M_bind_lift _ (map to_dict [c1; c2]) _ _ eq_refl).
      apply for_each_write_record. exact campaigns_serialisable. }
  rewrite (M_bind_lift _ (map to_dict [c1; c2]) _ _ eq_refl).
  reflexivity.
Qed.

Lemma sync_ad_groups_one (out : Out) :
  sync_ad_groups Client GetAdGroupsByCampaignId strftime client
    [py_getitem (to_dict c1) "Id"; py_getitem (to_dict c2) "Id"]
    selected_streams out
  = (out ++ [("ad_groups", to_dict g1)], Ok [PList [gid1]]).
Proof.
  unfold sync_ad_groups. cbn [sync_ad_groups_loop].
  rewrite (M_bind_lift _ _ _ _ c1_id).
  rewrite (M_bind_lift _ _ _ _ c1_one_ad_group), to_dict_collection.
  rewrite (M_bind_lift _ true _ _ eq_refl).
  rewrite (M_bind_lift _ (PList (map to_dict [g1])) _ _ eq_refl).
  rewrite ad_groups_selected.
  erewrite M_bind_run.
  2:{ rewrite (M_bind_lift _ (map to_dict [g1]) _ _ eq_refl).
      apply for_each_write_record. cbn [map forallb].
      rewrite ad_group_serialisable. reflexivity. }
  rewrite (M_bind_lift _ (map to_dict [g1]) _ _ eq_refl).
  erewrite M_bind_lift.
  2:{ cbn [mapM map]. rewrite g1_id. reflexivity. }
  rewrite (M_bind_lift _ _ _ _ c2_id).
  rewrite (M_bind_lift _ _ _ _ c2_no_ad_group).
  rewrite (M_bind_lift _ _ _ _ c2_no_ad_group_key).
  reflexivity.
Qed.

Lemma sync_ads_one (out : Out) :
  sync_ads Client GetAdsByAdGroupId strftime client [PList [gid1]] out
  = (out ++ [("ads", to_dict a1)], Ok tt).
Proof.
  unfold sync_ads. cbn [for_each].
  erewrite M_bind_run; [reflexivity|].
  rewrite (M_bind_lift _ _ _ _ g1_one_ad), to_dict_collection.
  rewrite (M_bind_lift _ true _ _ eq_refl).
  rewrite (M_bind_lift _ (PList (map to_dict [a1])) _ _ eq_refl).
  rewrite (M_bind_lift _ (map to_dict [a1]) _ _ eq_refl).
  apply for_each_write_record. cbn [map forallb].
  rewrite ad_serialisable. reflexivity.
Qed.

(** C8: with the campaign, ad-group and ad streams selected, syncing an
    account whose two campaigns are [c1], with the one ad group [g1] holding
    the one ad [a1], and [c2], with no ad group, all of them decoded to
    values that [json.dumps] accepts, writes the two campaign records, then
    the ad-group record, then the ad record, and nothing else but the
    account record when that stream is selected: 2 campaign records,
    1 ad-group record and 1 ad record, each after its parent.
    [sync_ads] asks for the ads with the list of the campaign's ad-group
    ids, here [[gid1]], as [AdGroupId]. *)
Theorem sync_emits_parents_first (out : Out) :
  let emitted :=
    [("campaigns", to_dict c1); ("campaigns", to_dict c2);
     ("ad_groups", to_dict g1); ("ads", to_dict a1)] in
  let account_message :=
    if selected "accounts" selected_streams then [("accounts", to_dict account)] else [] in
  sync_core_objects Client create_sdk_client GetAccount GetCampaignsByAccountId
    GetAdGroupsByCampaignId GetAdsByAdGroupId strftime
    customer_id account_id selected_streams out
    = (out ++ account_message ++ emitted, Ok tt) /\
  count_stream "campaigns" (account_message ++ emitted) = 2%nat /\
  count_stream "ad_groups" (account_message ++ emitted) = 1%nat /\
  count_stream "ads" (account_message ++ emitted) = 1%nat.
Proof.
  intros emitted account_message. split.
  - unfold sync_core_objects.
    erewrite (M_bind_run _ tt _ out (out ++ account_message)).
    2:{ unfold account_message. revert account_serialisable.
        destruct (selected "accounts" selected_streams); intros Haccount.
        - unfold sync_account_stream.
          rewrite (M_bind_lift _ _ _ _ accounts_client_created).
          rewrite (M_bind_lift _ _ _ _ account_fetched).
          apply write_record_serialisable, Haccount. reflexivity.
        - rewrite app_nil_r. reflexivity. }
    rewrite (M_bind_lift _ _ _ _ client_created).
    rewrite (M_bind_run _ _ _ _ _ (sync_campaigns_two _)).
    rewrite ad_groups_selected. cbn [orb].
    rewrite (M_bind_run _ _ _ _ _ (sync_ad_groups_one _)).
    rewrite ads_selected, sync_ads_one.
    rewrite <- !app_assoc. reflexivity.
  - unfold account_message.
    destruct (selected "accounts" selected_streams); repeat split.
Qed.

End SyncProperties.

Lemma sync_emits_parents_first_witness :
  sync_core_objects unit demo_create_sdk_client demo_GetAccount
    demo_GetCampaignsByAccountId demo_GetAdGroupsByCampaignId
    demo_GetAdsByAdGroupId demo_strftime
    (PStr "customer") (PInt 1) ["campaigns"; "ad_groups"; "ads"] []
  = ([("campaigns", sobject_to_dict demo_strftime (demo_entity 10 "first"));
      ("campaigns", sobject_to_dict demo_strftime (demo_entity 20 "second"));
      ("ad_groups", sobject_to_dict demo_strftime (demo_entity 100 "group"));
      ("ads", sobject_to_dict demo_strftime (demo_entity 1000 "ad"))],
     Ok tt).
Proof.
  apply (proj1 (sync_emits_parents_first unit demo_create_sdk_client demo_GetAccount
           demo_GetCampaignsByAccountId demo_GetAdGroupsByCampaignId
           demo_GetAdsByAdGroupId demo_strftime
           (PStr "customer") (PInt 1) ["campaigns"; "ad_groups"; "ads"] tt tt
           (demo_entity 1 "account")
           (demo_entity 10 "first") (demo_entity 20 "second")
           (demo_entity 100 "group") (demo_entity 1000 "ad")
           (PInt 10) (PInt 20) (PInt 100) (PStr "")
           eq_refl eq_refl eq_refl eq_refl eq_refl eq_refl eq_refl eq_refl eq_refl
           eq_refl eq_refl eq_refl eq_refl eq_refl
           eq_refl eq_refl eq_refl (fun _ => eq_refl) [])).
Defined.

(** [sync_ad_groups] returns one list of ids per campaign, not one id per
    ad group: for a campaign with two ad groups, [sync_ads] receives the
    single element [[100, 101]]. *)
Lemma sync_ad_groups_one_list_per_campaign :
  sync_ad_groups unit demo_two_ad_groups demo_strftime tt [Ok (PInt 10)] ["ads"] []
  = ([], Ok [PList [PInt 100; PInt 101]]).
Proof. reflexivity. Qed.

(** ** Account fetch *)

Lemma get_field_follows_chain (fields : list string) (obj default : Py) (o : option Py) :
  chain fields obj o ->
  get_field fields obj default = Ok (match o with Some v => v | None => default end).
Proof.
  induction 1 as [obj|field rest d Hget|field rest d Hget|field rest d v o Hget Hv Hc IH];
    simpl.
  - reflexivity.
  - rewrite Hget. reflexivity.
  - rewrite Hget. reflexivity.
  - rewrite Hget. simpl. destruct v; try exact IH. congruence.
Qed.

(** C10: on a chain of nested dicts [get_field] does not raise; it returns
    the default as soon as a field is missing or maps to [None], and the
    value at the end of the chain otherwise. *)
Theorem get_field_chain (fields : list string) (obj default : Py) (o : option Py) :
  chain fields obj o ->
  (o = None -> get_field fields obj default = Ok default) /\
  (forall v, o = Some v -> get_field fields obj default = Ok v).
Proof.
  intros Hchain. rewrite (get_field_follows_chain fields obj default o Hchain).
  split.
  - intros ->. reflexivity.
  - intros v ->. reflexivity.
Qed.

Lemma get_field_chain_witness :
  get_field ["a"; "b"] (PDict [("a", PDict [("b", PInt 1)])]) (PStr "dflt") = Ok (PInt 1) /\
  get_field ["a"; "c"; "d"] (PDict [("a", PDict [("b", PInt 1)])]) (PStr "dflt")
    = Ok (PStr "dflt").
Proof.
  split.
  - refine (proj2 (get_field_chain ["a"; "b"] _ (PStr "dflt") (Some (PInt 1)) _)
              (PInt 1) eq_refl).
    eapply chain_step; [reflexivity|discriminate|].
    eapply chain_step; [reflexivity|discriminate|].
    apply chain_end.
  - refine (proj1 (get_field_chain ["a"; "c"; "d"] _ (PStr "dflt") None _) eq_refl).
    eapply chain_step; [reflexivity|discriminate|].
    apply chain_missing. reflexivity.
Defined.

(** Whenever [get_field] returns, the fields led through nested dicts. *)
Lemma get_field_returns_on_chains (fields : list string) (obj default r : Py) :
  get_field fields obj default = Ok r ->
  exists o, chain fields obj o.
Proof.
  revert obj. induction fields as [|field rest IH]; intros obj H.
  - exists (Some obj). constructor.
  - destruct obj; try discriminate H. simpl in H.
    destruct (dict_get field d) as [v|] eqn:Hget.
    + simpl in H. destruct v;
        try (apply IH in H; destruct H as [o Ho]; exists o;
             eapply chain_step; [exact Hget|discriminate|exact Ho]).
      exists None. apply chain_none. exact Hget.
    + exists None. apply chain_missing. exact Hget.
Qed.

(** A value that is not a dict, met before the fields are used up, has no
    [get]. *)
Lemma get_field_leaf_raises :
  get_field ["a"; "b"] (PDict [("a", PStr "text")]) PNone = Raise AttributeError.
Proof. reflexivity. Qed.

Lemma mapM_Forall2 {A B : Type} (f : A -> result B) (l : list A) (ys : list B) :
  Forall2 (fun x y => f x = Ok y) l ys -> mapM f l = Ok ys.
Proof.
  induction 1 as [|x y l ys Hxy _ IH]; simpl.
  - reflexivity.
  - rewrite Hxy, IH. reflexivity.
Qed.

(** C9, as the specification states it, fails on a decoded response with
    a text at the [a:AccountInfo] path: [_request_ad_accounts] returns the
    text, which is not a list, and [fetch_ad_accounts] raises [TypeError]
    at the first character's [a:Id]; and for an account dict without [a:Id]
    [fetch_ad_accounts] raises [KeyError]. *)
Lemma request_ad_accounts_text_is_not_list :
  _request_ad_accounts example_request_text 42 (PStr "token") (PStr "dev")
    = Ok (PStr "Contoso") /\
  (forall l,
     _request_ad_accounts example_request_text 42 (PStr "token") (PStr "dev")
       <> Ok (PList l)) /\
  fetch_ad_accounts example_request_text example_int (PStr "token") (PStr "dev")
    = Raise TypeError /\
  fetch_ad_accounts example_request_no_id example_int (PStr "token") (PStr "dev")
    = Raise KeyError.
Proof.
  split; [reflexivity|]. split; [intros l; discriminate|]. split; reflexivity.
Qed.

Section FetchAdAccountsProperties.

Variable _request : string -> list Py -> result Py.
Variable py_int : Py -> result Z.
Variables access_token developer_token response : Py.
Variable customer_id : Z.

Hypothesis customer_id_returned :
  _request_customer_id _request py_int access_token developer_token = Ok customer_id.
Hypothesis accounts_info_returned :
  _request "GetAccountsInfo" [access_token; developer_token; PInt customer_id]
  = Ok response.

(** C9, amended: for a decoded response in which following the
    [a:AccountInfo] path through nested dicts ends at nothing (a missing key
    or [None]), at one account dict or at a list, [_request_ad_accounts]
    returns a list: the empty list, the list of that dict, or the list
    itself.  Then, when every account has an [a:Id], [fetch_ad_accounts]
    returns the customer id with the list of the accounts' [a:Id] values,
    one per account. *)
Theorem request_ad_accounts_returns_list (o : option Py) (accounts : list Py) :
  chain account_info_path response o ->
  listed_accounts o = Some accounts ->
  _request_ad_accounts _request customer_id access_token developer_token
    = Ok (PList accounts) /\
  forall ids,
    Forall2 (fun account id => py_getitem account "a:Id" = Ok id) accounts ids ->
    fetch_ad_accounts _request py_int access_token developer_token
      = Ok (customer_id, ids).
Proof.
  intros Hchain Hlisted.
  assert (Hreq : _request_ad_accounts _request customer_id access_token developer_token
                 = Ok (PList accounts)).
  { unfold _request_ad_accounts. rewrite accounts_info_returned.
    cbv beta iota delta [mbind result_bind].
    rewrite (get_field_follows_chain _ _ (PList []) o Hchain).
    destruct o as [v|]; simpl in *.
    - destruct v; try discriminate Hlisted; injection Hlisted as <-; reflexivity.
    - injection Hlisted as <-. reflexivity. }
  split; [exact Hreq|].
  intros ids Hids. unfold fetch_ad_accounts.
  rewrite customer_id_returned. cbv beta iota delta [mbind result_bind].
  rewrite Hreq. simpl. rewrite (mapM_Forall2 _ _ _ Hids). reflexivity.
Qed.

End FetchAdAccountsProperties.

Lemma request_ad_accounts_returns_list_witness :
  _request_ad_accounts example_request 42 (PStr "token") (PStr "dev")
    = Ok (PList [PDict [("a:Id", PStr "7"); ("a:Name", PStr "Contoso")]]) /\
  fetch_ad_accounts example_request example_int (PStr "token") (PStr "dev")
    = Ok (42%Z, [PStr "7"]).
Proof.
  pose proof (request_ad_accounts_returns_list example_request example_int
                (PStr "token") (PStr "dev")
                (nested account_info_path
                   (PDict [("a:Id", PStr "7"); ("a:Name", PStr "Contoso")]))
                42%Z eq_refl eq_refl
                (Some (PDict [("a:Id", PStr "7"); ("a:Name", PStr "Contoso")]))
                [PDict [("a:Id", PStr "7"); ("a:Name", PStr "Contoso")]]) as H.
  destruct H as [H1 H2].
  - repeat (eapply chain_step; [reflexivity|discriminate|]). apply chain_end.
  - reflexivity.
  - split; [exact H1|]. apply H2. repeat constructor.
Defined.

(** * Further properties *)

(** ** [get_field] and the account fetch *)

Lemma get_field_app_chain (fs1 fs2 : list string) (obj default : Py) (o : option Py) :
  chain fs1 obj o ->
  get_field (fs1 ++ fs2) obj default
  = match o with
    | Some v => get_field fs2 v default
    | None => Ok default
    end.
Proof.
  induction 1 as [obj|field rest d Hget|field rest d Hget|field rest d v o Hget Hv Hc IH].
  - reflexivity.
  - simpl. rewrite Hget. reflexivity.
  - simpl. rewrite Hget. reflexivity.
  - cbn [app get_field py_get]. rewrite Hget.
    cbv beta iota delta [mbind result_bind]. destruct v; try exact IH. congruence.
Qed.

(** X1: following [fs1 ++ fs2] is following [fs1] and then [fs2] from the
    value reached; when [fs1] already breaks off, the default is returned
    and [fs2] is not looked at. *)
Theorem get_field_app (fs1 fs2 : list string) (obj default : Py) (o : option Py) :
  chain fs1 obj o ->
  (forall v, o = Some v ->
     get_field (fs1 ++ fs2) obj default = get_field fs2 v default) /\
  (o = None -> get_field (fs1 ++ fs2) obj default = Ok default).
Proof.
  intros Hc. rewrite (get_field_app_chain fs1 fs2 obj default o Hc). split.
  - intros v ->. reflexivity.
  - intros ->. reflexivity.
Qed.

Lemma get_field_app_witness :
  get_field (["a"] ++ ["b"]) (PDict [("a", PDict [("b", PInt 1)])]) PNone
  = get_field ["b"] (PDict [("b", PInt 1)]) PNone.
Proof.
  refine (proj1 (get_field_app ["a"] ["b"] (PDict [("a", PDict [("b", PInt 1)])]) PNone
                   (Some (PDict [("b", PInt 1)])) _) _ eq_refl).
  eapply chain_step; [reflexivity|discriminate|apply chain_end].
Defined.

Lemma get_field_raises_without_chain (fields : list string) (obj default : Py) :
  (exists o, chain fields obj o) \/
  get_field fields obj default = Raise AttributeError.
Proof.
  revert obj. induction fields as [|field rest IH]; intros obj.
  - left. exists (Some obj). constructor.
  - destruct obj; try (right; reflexivity).
    destruct (dict_get field d) as [v|] eqn:Hget.
    + assert (Hdec : v = PNone \/ v <> PNone)
        by (destruct v; (left; reflexivity) || (right; discriminate)).
      destruct Hdec as [->|Hv].
      * left. exists None. apply chain_none. exact Hget.
      * destruct (IH v) as [[o Ho]|Hr].
        -- left. exists o. eapply chain_step; eauto.
        -- right. simpl. rewrite Hget. simpl. destruct v; try exact Hr. congruence.
    + left. exists None. apply chain_missing. exact Hget.
Qed.

Lemma get_field_raises_stuck (fields : list string) (obj default : Py) (e : exn) :
  get_field fields obj default = Raise e -> e = AttributeError /\ stuck fields obj.
Proof.
  revert obj. induction fields as [|field rest IH]; intros obj H; [discriminate H|].
  destruct obj as [| | | | |d| | |];
    try (injection H as <-; split; [reflexivity|apply stuck_here; discriminate]).
  cbn [get_field py_get] in H.
  destruct (dict_get field d) as [v|] eqn:Hget; [|discriminate H].
  cbv beta iota delta [mbind result_bind] in H.
  assert (Hv : v <> PNone) by (intros ->; discriminate H).
  assert (Hrest : get_field rest v default = Raise e)
    by (destruct v; solve [exact H | congruence]).
  destruct (IH v Hrest) as [-> Hstuck].
  split; [reflexivity|]. exact (stuck_later field rest d v Hget Hv Hstuck).
Qed.

Lemma stuck_get_field_raises (fields : list string) (obj default : Py) :
  stuck fields obj -> get_field fields obj default = Raise AttributeError.
Proof.
  induction 1 as [field rest obj Hobj|field rest d v Hget Hv _ IH].
  - destruct obj; try reflexivity. destruct (Hobj d). reflexivity.
  - cbn [get_field py_get]. rewrite Hget.
    cbv beta iota delta [mbind result_bind]. destruct v; solve [exact IH | congruence].
Qed.

(** X2: [get_field] raises nothing but [AttributeError], and raises it
    exactly when a value without [get] is met while a field remains: the
    object it starts from is not a dict, [None] included, or a value reached
    through the dicts is neither a dict nor [None]; otherwise it returns. *)
Theorem get_field_outcome (fields : list string) (obj default : Py) :
  (get_field fields obj default = Raise AttributeError <-> stuck fields obj) /\
  (forall e, get_field fields obj default = Raise e -> e = AttributeError) /\
  (~ stuck fields obj -> exists v, get_field fields obj default = Ok v).
Proof.
  split; [split|split].
  - intros H. apply (get_field_raises_stuck _ _ _ _ H).
  - apply stuck_get_field_raises.
  - intros e H. apply (get_field_raises_stuck _ _ _ _ H).
  - intros Hfree. destruct (get_field fields obj default) as [v|e] eqn:H.
    + exists v. reflexivity.
    + destruct Hfree. apply (get_field_raises_stuck _ _ _ _ H).
Qed.

(** [get_field('a', obj=None)]. *)
Lemma get_field_from_None :
  stuck ["a"] PNone /\ get_field ["a"] PNone PNone = Raise AttributeError.
Proof. split; [apply stuck_here; discriminate|reflexivity]. Qed.

Lemma get_field_not_None (fields : list string) (obj default v : Py) :
  fields <> [] ->
  get_field fields obj default = Ok v ->
  v = default \/ v <> PNone.
Proof.
  revert obj. induction fields as [|field rest IH]; intros obj Hne H; [congruence|].
  simpl in H. destruct (py_get obj field) as [obj'|] eqn:Hget; [|discriminate H].
  simpl in H.
  destruct rest as [|field' rest'].
  - destruct obj'; simpl in H; injection H as <-; (left; reflexivity) || (right; discriminate).
  - destruct obj'; try (apply (IH _ ltac:(discriminate) H)).
    injection H as <-. left. reflexivity.
Qed.

(** X3: with at least one field, [get_field] never hands back a [None]
    found in the data: what it returns is the default or a value other than
    [None]; so with a default other than [None] the result is never
    [None]. *)
Theorem get_field_never_None (fields : list string) (obj default v : Py) :
  fields <> [] ->
  get_field fields obj default = Ok v ->
  (v = default \/ v <> PNone) /\ (default <> PNone -> v <> PNone).
Proof.
  intros Hne H. destruct (get_field_not_None fields obj default v Hne H) as [->|Hv].
  - split; [left; reflexivity|auto].
  - split; [right; exact Hv|auto].
Qed.

Lemma get_field_never_None_witness :
  (PList [] = PList [] \/ PList [] <> PNone) /\ (PList [] <> PNone -> PList [] <> PNone).
Proof.
  apply (get_field_never_None ["a"] (PDict [("a", PNone)]) (PList []) (PList []));
    [discriminate|reflexivity].
Defined.

Lemma mapM_Ok_Forall2 {A B : Type} (f : A -> result B) (l : list A) (ys : list B) :
  mapM f l = Ok ys -> Forall2 (fun x y => f x = Ok y) l ys.
Proof.
  revert ys. induction l as [|x l IH]; intros ys H; simpl in H.
  - injection H as <-. constructor.
  - destruct (f x) as [y|] eqn:Hx; [|discriminate H]. simpl in H.
    destruct (mapM f l) as [ys'|]; [|discriminate H]. simpl in H.
    injection H as <-. constructor; [exact Hx|]. apply IH. reflexivity.
Qed.

Lemma mapM_first_Raise {A B : Type} (f : A -> result B) (pre post : list A) (x : A)
    (e : exn) :
  Forall (fun a => exists b, f a = Ok b) pre ->
  f x = Raise e ->
  mapM f (pre ++ x :: post) = Raise e.
Proof.
  intros Hpre Hx. induction Hpre as [|a pre [b Hb] _ IH]; simpl.
  - rewrite Hx. reflexivity.
  - rewrite Hb. simpl. rewrite IH. reflexivity.
Qed.

Section FetchAdAccountsFurther.

Variable _request : string -> list Py -> result Py.
Variable py_int : Py -> result Z.
Variables access_token developer_token : Py.

(** X4: what [_request_ad_accounts] returns is never a dict and never
    [None]: a single account dict comes back inside a list, and a missing or
    empty [a:AccountInfo] as the empty list. *)
Theorem request_ad_accounts_never_dict (customer_id : Z) (v : Py) :
  _request_ad_accounts _request customer_id access_token developer_token = Ok v ->
  (forall d, v <> PDict d) /\ v <> PNone.
Proof.
  unfold _request_ad_accounts. intros H.
  destruct (_request "GetAccountsInfo" [access_token; developer_token; PInt customer_id])
    as [response|]; [|discriminate H].
  cbv beta iota delta [mbind result_bind] in H.
  destruct (get_field account_info_path response (PList [])) as [x|] eqn:Hx;
    [|discriminate H].
  apply get_field_not_None in Hx; [|discriminate].
  destruct x; injection H as <-; split; try discriminate;
    destruct Hx as [Hx|Hx]; congruence.
Qed.

(** X5: when [fetch_ad_accounts] returns, the customer id is the one
    [_request_customer_id] gave, and the ids are the [a:Id] entries of the
    items of what [_request_ad_accounts] returned for that customer, one per
    item and in the same order. *)
Theorem fetch_ad_accounts_ids (customer_id : Z) (ids : list Py) :
  fetch_ad_accounts _request py_int access_token developer_token = Ok (customer_id, ids) ->
  _request_customer_id _request py_int access_token developer_token = Ok customer_id /\
  exists v accounts,
    _request_ad_accounts _request customer_id access_token developer_token = Ok v /\
    py_iter v = Ok accounts /\
    Forall2 (fun account id => py_getitem account "a:Id" = Ok id) accounts ids /\
    List.length ids = List.length accounts.
Proof.
  unfold fetch_ad_accounts. intros H.
  destruct (_request_customer_id _request py_int access_token developer_token)
    as [cid|]; [|discriminate H].
  cbv beta iota delta [mbind result_bind] in H.
  destruct (_request_ad_accounts _request cid access_token developer_token)
    as [v|] eqn:Hv; [|discriminate H].
  destruct (py_iter v) as [accounts|] eqn:Hi; [|discriminate H].
  destruct (mapM (fun ad_account => py_getitem ad_account "a:Id") accounts)
    as [ys|] eqn:Hm; [|discriminate H].
  injection H as <- <-. split; [reflexivity|].
  exists v, accounts. apply mapM_Ok_Forall2 in Hm.
  repeat split; try assumption. symmetry. eapply Forall2_length. exact Hm.
Qed.

(** X6: an account without [a:Id] makes [fetch_ad_accounts] raise
    [KeyError], whatever the other accounts hold; no partial list of ids is
    returned. *)
Theorem fetch_ad_accounts_missing_id (customer_id : Z) (pre post : list Py)
    (d : dict Py) :
  _request_customer_id _request py_int access_token developer_token = Ok customer_id ->
  _request_ad_accounts _request customer_id access_token developer_token
    = Ok (PList (pre ++ PDict d :: post)) ->
  Forall (fun account => exists id, py_getitem account "a:Id" = Ok id) pre ->
  dict_get "a:Id" d = None ->
  fetch_ad_accounts _request py_int access_token developer_token = Raise KeyError.
Proof.
  intros Hc Ha Hpre Hd. unfold fetch_ad_accounts.
  rewrite Hc. cbv beta iota delta [mbind result_bind]. rewrite Ha.
  cbn [py_iter].
  rewrite (mapM_first_Raise _ pre post (PDict d) KeyError Hpre); [reflexivity|].
  simpl. rewrite Hd. reflexivity.
Qed.

End FetchAdAccountsFurther.

Lemma request_ad_accounts_never_dict_witness :
  (forall d, PList [PDict [("a:Id", PStr "7"); ("a:Name", PStr "Contoso")]] <> PDict d) /\
  PList [PDict [("a:Id", PStr "7"); ("a:Name", PStr "Contoso")]] <> PNone.
Proof.
  apply (request_ad_accounts_never_dict example_request (PStr "token") (PStr "dev") 42%Z).
  reflexivity.
Defined.

Lemma fetch_ad_accounts_ids_witness :
  _request_customer_id example_request example_int (PStr "token") (PStr "dev") = Ok 42%Z /\
  exists v accounts,
    _request_ad_accounts example_request 42 (PStr "token") (PStr "dev") = Ok v /\
    py_iter v = Ok accounts /\
    Forall2 (fun account id => py_getitem account "a:Id" = Ok id) accounts [PStr "7"] /\
    List.length [PStr "7"] = List.length accounts.
Proof.
  apply (fetch_ad_accounts_ids example_request example_int (PStr "token") (PStr "dev")).
  reflexivity.
Defined.

Lemma fetch_ad_accounts_missing_id_witness :
  fetch_ad_accounts example_request_no_id example_int (PStr "token") (PStr "dev")
  = Raise KeyError.
Proof.
  apply (fetch_ad_accounts_missing_id example_request_no_id example_int
           (PStr "token") (PStr "dev") 42%Z [] [] [("a:Name", PStr "Contoso")]);
    [reflexivity|reflexivity|constructor|reflexivity].
Defined.

(** ** Scalar fragments and array names *)

Lemma xml_to_json_type_range (t : string) : In (xml_to_json_type t) json_types.
Proof.
  unfold xml_to_json_type, json_types.
  destruct (String.eqb t "boolean"); [simpl; tauto|].
  destruct (existsb (String.eqb t) ["decimal"; "float"; "double"]); [simpl; tauto|].
  destruct (String.eqb t "long"); [simpl; tauto|].
  destruct (existsb (String.eqb t) ["dateTime"; "date"]); simpl; tauto.
Qed.

(** X7: [get_json_schema] raises [IndexError] exactly on a [simpleType]
    node without raw children, [TypeError] exactly on another node without
    [type], and nothing else; on every other node it returns. *)
Theorem get_json_schema_outcome (e : SchemaObject) :
  (get_json_schema e = Raise IndexError
   <-> root_name e = "simpleType" /\ rawchildren e = []) /\
  (get_json_schema e = Raise TypeError
   <-> root_name e <> "simpleType" /\ type e = None) /\
  ((exists s, get_json_schema e = Ok s)
   <-> (root_name e = "simpleType" /\ rawchildren e <> []) \/
       (root_name e <> "simpleType" /\ type e <> None)).
Proof.
  unfold get_json_schema.
  destruct (String.eqb_spec (root_name e) "simpleType") as [Hr|Hr];
    [destruct (rawchildren e) as [|r others]|destruct (type e) as [[t ns]|]];
    simpl; (split; [|split]); split;
    try (intros [s H]; discriminate H);
    try (intros _; eexists; reflexivity);
    intros; intuition (try discriminate; try congruence).
Qed.

(** X8: a fragment that [get_json_schema] returns has the keys [type],
    then [format], then [enum], the last two optional and never both.  The
    type list is [null] (only for a nillable node) followed by one JSON type.
    [format] is [date-time], on a string, and only for a node that is not a
    simple type; [enum] is a non-empty list of strings, on a string, and only
    for a simple type.  There is never a [properties] key. *)
Theorem get_json_schema_shape (e : SchemaObject) (s : Py) :
  get_json_schema e = Ok s ->
  exists (j : string) (fmt en : dict Py),
    s = PDict ([("type", PList ((if nillable e then [PStr "null"] else []) ++ [PStr j]))]
               ++ fmt ++ en) /\
    In j json_types /\
    (fmt = [] \/
     fmt = [("format", PStr "date-time")] /\ j = "string" /\ en = [] /\
     root_name e <> "simpleType") /\
    (en = [] \/
     exists v vs, en = [("enum", PList (map PStr (v :: vs)))] /\ j = "string" /\
                  fmt = [] /\ root_name e = "simpleType").
Proof.
  unfold get_json_schema. intros H.
  destruct (String.eqb_spec (root_name e) "simpleType") as [Hr|Hr].
  - destruct (first (rawchildren e)) as [r|]; [|discriminate H].
    simpl in H. injection H as <-. exists "string", [].
    destruct (rawchildren r) as [|x xs].
    + exists []. split; [reflexivity|]. split; [simpl; tauto|].
      split; left; reflexivity.
    + exists [("enum", PList (map PStr (map name (x :: xs))))].
      split; [simpl; rewrite map_map; reflexivity|].
      split; [simpl; tauto|]. split; [left; reflexivity|].
      right. exists (name x), (map name xs). auto.
  - destruct (subscript0 (type e)) as [t|]; [|discriminate H].
    simpl in H. injection H as <-.
    exists (xml_to_json_type t).
    destruct (String.eqb_spec t "dateTime") as [->|Hdt]; simpl.
    { exists [("format", PStr "date-time")], []. split; [reflexivity|].
      split; [simpl; tauto|]. split; [right; auto|left; reflexivity]. }
    destruct (String.eqb_spec t "date") as [->|Hd]; simpl.
    { exists [("format", PStr "date-time")], []. split; [reflexivity|].
      split; [simpl; tauto|]. split; [right; auto|left; reflexivity]. }
    exists [], []. split; [reflexivity|]. split; [apply xml_to_json_type_range|].
    split; left; reflexivity.
Qed.

Lemma get_json_schema_shape_witness :
  exists (j : string) (fmt en : dict Py),
    status_fragment
    = PDict ([("type", PList ([] ++ [PStr j]))] ++ fmt ++ en) /\
    In j json_types /\
    (fmt = [] \/
     fmt = [("format", PStr "date-time")] /\ j = "string" /\ en = [] /\
     "simpleType" <> "simpleType") /\
    (en = [] \/
     exists v vs, en = [("enum", PList (map PStr (v :: vs)))] /\ j = "string" /\
                  fmt = [] /\ "simpleType" = "simpleType").
Proof.
  apply (get_json_schema_shape (simple_type "Status" ["Active"; "Paused"])).
  reflexivity.
Defined.

Lemma strip_prefix_Some (p s rest : string) :
  strip_prefix p s = Some rest <-> s = p +:+ rest.
Proof.
  revert s. induction p as [|a p IH]; intros s; simpl.
  - split; [intros [= ->]; reflexivity|intros ->; reflexivity].
  - destruct s as [|b s]; [split; discriminate|].
    destruct (Ascii.eqb_spec a b) as [->|Hab].
    + rewrite IH. split; [intros ->; reflexivity|intros [= ->]; reflexivity].
    + split; [discriminate|intros [= <- _]; congruence].
Qed.

Lemma lower_run_split (s : string) :
  exists rest, s = lower_run s +:+ rest /\
    is_lower_string (lower_run s) = true /\ no_lower_head rest = true.
Proof.
  induction s as [|c s (rest & Hs & Hl & Hh)]; simpl.
  - exists "". auto.
  - destruct (is_lower c) eqn:Hc.
    + exists rest. split; [exact (f_equal (String c) Hs)|].
      split; [|exact Hh]. unfold is_lower_string in *. simpl. rewrite Hc. exact Hl.
    + exists (String c s). split; [reflexivity|]. split; [reflexivity|].
      simpl. rewrite Hc. reflexivity.
Qed.

Lemma lower_run_app (tok rest : string) :
  is_lower_string tok = true -> no_lower_head rest = true ->
  lower_run (tok +:+ rest) = tok.
Proof.
  unfold is_lower_string. induction tok as [|c tok IH]; simpl; intros Ht Hr.
  - destruct rest as [|c rest]; [reflexivity|]. simpl in *.
    destruct (is_lower c); [discriminate|reflexivity].
  - apply andb_prop in Ht as [Hc Ht]. rewrite Hc, (IH Ht Hr). reflexivity.
Qed.

Lemma array_type_match_Some (s tok : string) :
  array_type_match s = Some tok <->
  exists rest, s = "ArrayOf" +:+ (tok +:+ rest) /\ tok <> "" /\
    is_lower_string tok = true /\ no_lower_head rest = true.
Proof.
  unfold array_type_match. split.
  - destruct (strip_prefix "ArrayOf" s) as [rest0|] eqn:Hs; [|discriminate].
    apply strip_prefix_Some in Hs.
    destruct (lower_run_split rest0) as (rest & Hrest & Hl & Hh).
    destruct (lower_run rest0) as [|c run] eqn:Hrun; [discriminate|].
    intros [= <-]. exists rest. rewrite <- Hrest. repeat split; auto; discriminate.
  - intros (rest & -> & Hne & Hl & Hh).
    assert (Hs : strip_prefix "ArrayOf" ("ArrayOf" +:+ (tok +:+ rest)) = Some (tok +:+ rest))
      by (apply strip_prefix_Some; reflexivity).
    rewrite Hs, (lower_run_app tok rest Hl Hh).
    destruct tok; [congruence|reflexivity].
Qed.

(** X9: [get_array_type] returns exactly for a name that starts with
    [ArrayOf] followed by a lowercase letter.  Then the name is [ArrayOf],
    a non-empty run [tok] of lowercase letters, and a rest that does not go
    on with a lowercase letter, and the result is the array fragment whose
    items have the scalar mapping of [tok], one of the four JSON types.  For
    every other name, such as one with [ArrayOf] further inside, it raises
    [AttributeError]. *)
Theorem get_array_type_outcome (s : string) :
  (exists tok rest,
     s = "ArrayOf" +:+ (tok +:+ rest) /\ tok <> "" /\
     is_lower_string tok = true /\ no_lower_head rest = true /\
     get_array_type s = Ok (array_fragment (xml_to_json_type tok)) /\
     In (xml_to_json_type tok) json_types) \/
  (get_array_type s = Raise AttributeError /\
   forall c rest, is_lower c = true -> s <> "ArrayOf" +:+ String c rest).
Proof.
  unfold get_array_type.
  destruct (array_type_match s) as [tok|] eqn:Hm.
  - left. apply array_type_match_Some in Hm as (rest & Hs & Hne & Hl & Hh).
    exists tok, rest. repeat split; auto. apply xml_to_json_type_range.
  - right. split; [reflexivity|]. intros c rest Hc ->.
    unfold array_type_match in Hm.
    assert (Hs : strip_prefix "ArrayOf" ("ArrayOf" +:+ String c rest) = Some (String c rest))
      by (apply strip_prefix_Some; reflexivity).
    rewrite Hs in Hm. simpl in Hm. rewrite Hc in Hm. discriminate Hm.
Qed.

(** ** Object fragments *)

Lemma dict_get_app {V : Type} (k : string) (d1 d2 : dict V) :
  dict_get k (d1 ++ d2)
  = match dict_get k d1 with
    | Some v => Some v
    | None => dict_get k d2
    end.
Proof.
  induction d1 as [|[k' v'] d1 IH]; simpl; [reflexivity|].
  destruct (String.eqb k k'); [reflexivity|exact IH].
Qed.

Lemma dict_set_fresh {V : Type} (k : string) (v : V) (d : dict V) :
  k ∉ d.*1 -> dict_set k v d = d ++ [(k, v)].
Proof.
  induction d as [|[k' v'] d IH]; csimpl; intros Hk; [reflexivity|].
  apply not_elem_of_cons in Hk as [Hne Hk].
  apply String.eqb_neq in Hne. rewrite Hne, (IH Hk). reflexivity.
Qed.

Lemma build_properties_distinct (elements : list SchemaObject) (values : list Py)
    (acc : dict Py) :
  NoDup (acc.*1 ++ map name elements) ->
  Forall2 (fun e v => element_property e = Ok v) elements values ->
  build_properties elements acc = Ok (acc ++ zip (map name elements) values).
Proof.
  intros Hnd Hall. revert acc Hnd.
  induction Hall as [|e v elements values Hev _ IH]; intros acc Hnd; simpl.
  - rewrite app_nil_r. reflexivity.
  - rewrite Hev. simpl.
    assert (Hfresh : name e ∉ acc.*1).
    { apply NoDup_app in Hnd as (_ & Hdisj & _). intros Hin.
      apply (Hdisj _ Hin). left. }
    rewrite (dict_set_fresh _ _ _ Hfresh), IH.
    + rewrite <- app_assoc. reflexivity.
    + rewrite fmap_app. csimpl. rewrite <- app_assoc. exact Hnd.
Qed.

Lemma build_properties_last (elements : list SchemaObject) (values : list Py)
    (acc : dict Py) :
  Forall2 (fun e v => element_property e = Ok v) elements values ->
  exists props,
    build_properties elements acc = Ok props /\
    forall n, dict_get n props
              = match dict_get n (rev (zip (map name elements) values)) with
                | Some v => Some v
                | None => dict_get n acc
                end.
Proof.
  intros Hall. revert acc.
  induction Hall as [|e v elements values Hev _ IH]; intros acc; simpl.
  - exists acc. split; reflexivity.
  - rewrite Hev. simpl.
    destruct (IH (dict_set (name e) v acc)) as (props & Hb & Hget).
    exists props. split; [exact Hb|]. intros n.
    rewrite Hget, dict_get_app. simpl.
    destruct (dict_get n (rev (zip (map name elements) values))); [reflexivity|].
    destruct (String.eqb_spec n (name e)) as [->|Hne].
    + apply dict_get_set_eq.
    + apply dict_get_set_ne. congruence.
Qed.

Lemma build_properties_first_Raise (pre post : list SchemaObject) (e : SchemaObject)
    (x : exn) (acc : dict Py) :
  Forall (fun c => exists v, element_property c = Ok v) pre ->
  element_property e = Raise x ->
  build_properties (pre ++ e :: post) acc = Raise x.
Proof.
  intros Hpre He. revert acc.
  induction Hpre as [|c pre [v Hv] _ IH]; intros acc; simpl.
  - rewrite He. reflexivity.
  - rewrite Hv. simpl. apply IH.
Qed.

(** X10: for a complex type whose children have distinct names and each
    get a property value, [wsdl_type_to_schema] returns the object fragment
    whose properties are the children's names with their values, one per
    child, in declaration order; only the first raw child of the type is
    read. *)
Theorem properties_in_declaration_order (t c : SchemaObject)
    (others : list SchemaObject) (values : list Py) :
  root_name t <> "simpleType" ->
  rawchildren t = c :: others ->
  NoDup (map name (rawchildren c)) ->
  Forall2 (fun e v => element_property e = Ok v) (rawchildren c) values ->
  wsdl_type_to_schema t
  = Ok (object_schema (zip (map name (rawchildren c)) values)) /\
  List.length (zip (map name (rawchildren c)) values) = List.length (rawchildren c).
Proof.
  intros Hroot Hc Hnd Hall. split.
  - unfold wsdl_type_to_schema. apply String.eqb_neq in Hroot. rewrite Hroot, Hc. simpl.
    rewrite (build_properties_distinct (rawchildren c) values []); [reflexivity| |exact Hall].
    exact Hnd.
  - rewrite length_zip_with, length_map. apply Forall2_length in Hall. lia.
Qed.

Lemma properties_in_declaration_order_witness :
  wsdl_type_to_schema order_type = Ok (object_schema order_properties) /\
  List.length order_properties = 2%nat.
Proof.
  apply (properties_in_declaration_order order_type
           (untyped_node "sequence" ""
              [typed_element "Id" "long" XMLSchema_ns false;
               typed_element "Buyer" "Customer" bingads_ns true])
           [] [PDict [("type", PList [PStr "integer"])]; PStr "Customer"]).
  - simpl. discriminate.
  - reflexivity.
  - simpl. apply NoDup_cons. split; [|apply NoDup_singleton].
    rewrite list_elem_of_singleton. discriminate.
  - repeat constructor.
Defined.

(** X11: when two children of a complex type have the same name, the
    property of that name holds the value of the later one: reading a
    property of the fragment gives the value of the last child so named, and
    nothing for a name that no child has. *)
Theorem later_child_overwrites (t c : SchemaObject) (others : list SchemaObject)
    (values : list Py) :
  root_name t <> "simpleType" ->
  rawchildren t = c :: others ->
  Forall2 (fun e v => element_property e = Ok v) (rawchildren c) values ->
  exists props,
    wsdl_type_to_schema t = Ok (object_schema props) /\
    forall n, dict_get n props = dict_get n (rev (zip (map name (rawchildren c)) values)).
Proof.
  intros Hroot Hc Hall.
  destruct (build_properties_last (rawchildren c) values [] Hall) as (props & Hb & Hget).
  exists props. split.
  - unfold wsdl_type_to_schema. apply String.eqb_neq in Hroot. rewrite Hroot, Hc. simpl.
    rewrite Hb. reflexivity.
  - intros n. rewrite Hget.
    destruct (dict_get n (rev (zip (map name (rawchildren c)) values))); reflexivity.
Qed.

(** X12: a complex type without raw children makes [wsdl_type_to_schema]
    raise [IndexError]; and when a child's property raises, all children
    before it having a value, [wsdl_type_to_schema] raises that exception:
    there is no fragment with the other children only. *)
Theorem wsdl_type_to_schema_raises (t : SchemaObject) :
  root_name t <> "simpleType" ->
  (rawchildren t = [] -> wsdl_type_to_schema t = Raise IndexError) /\
  (forall c others pre e post x,
     rawchildren t = c :: others ->
     rawchildren c = pre ++ e :: post ->
     Forall (fun child => exists v, element_property child = Ok v) pre ->
     element_property e = Raise x ->
     wsdl_type_to_schema t = Raise x).
Proof.
  intros Hroot. apply String.eqb_neq in Hroot. unfold wsdl_type_to_schema. rewrite Hroot.
  split.
  - intros ->. reflexivity.
  - intros c others pre e post x -> Hc Hpre He. simpl. rewrite Hc.
    rewrite (build_properties_first_Raise pre post e x [] Hpre He). reflexivity.
Qed.

Lemma wsdl_type_to_schema_raises_witness :
  wsdl_type_to_schema (untyped_node "complexType" "Empty" []) = Raise IndexError /\
  wsdl_type_to_schema (account_type status_inline_element) = Raise TypeError.
Proof.
  split.
  - apply (proj1 (wsdl_type_to_schema_raises (untyped_node "complexType" "Empty" [])
                    ltac:(simpl; discriminate))).
    reflexivity.
  - refine (proj2 (wsdl_type_to_schema_raises (account_type status_inline_element)
                     ltac:(simpl; discriminate))
              (untyped_node "sequence" ""
                 [typed_element "Id" "long" XMLSchema_ns false;
                  typed_element "Name" "string" XMLSchema_ns false;
                  status_inline_element])
              []
              [typed_element "Id" "long" XMLSchema_ns false;
               typed_element "Name" "string" XMLSchema_ns false]
              status_inline_element [] TypeError eq_refl eq_refl _ eq_refl).
    repeat constructor; eexists; reflexivity.
Defined.

(** A child without [type] never gets a fragment.  If it is not
    rooted at [enumeration] and has a [ref], its property is the placeholder
    string naming the referenced type, whatever the namespace of the
    reference; if it is rooted at [enumeration] or has no [ref] either, the
    loop raises [TypeError]. *)
Theorem child_without_type (e : SchemaObject) :
  type e = None ->
  (forall r ns, root_name e <> "enumeration" -> ref e = Some (r, ns) ->
     element_property e = Ok (PStr r)) /\
  (root_name e = "enumeration" \/ ref e = None ->
     element_property e = Raise TypeError).
Proof.
  intros Htype. unfold element_property. split.
  - intros r ns Hroot Href. apply String.eqb_neq in Hroot.
    rewrite Hroot, Htype, Href. reflexivity.
  - intros [Hroot|Href].
    + rewrite Hroot. simpl. unfold get_json_schema. rewrite Hroot, Htype. reflexivity.
    + destruct (String.eqb_spec (root_name e) "enumeration") as [Hr|Hr].
      * unfold get_json_schema. rewrite Hr, Htype. reflexivity.
      * rewrite Htype, Href. reflexivity.
Qed.

Lemma later_child_overwrites_witness :
  exists props,
    wsdl_type_to_schema
      (complex_type "Pair"
         [typed_element "Value" "long" XMLSchema_ns false;
          typed_element "Value" "Other" bingads_ns false])
    = Ok (object_schema props) /\
    forall n, dict_get n props
              = dict_get n (rev (zip ["Value"; "Value"]
                                   [PDict [("type", PList [PStr "integer"])]; PStr "Other"])).
Proof.
  apply (later_child_overwrites
           (complex_type "Pair"
              [typed_element "Value" "long" XMLSchema_ns false;
               typed_element "Value" "Other" bingads_ns false])
           (untyped_node "sequence" ""
              [typed_element "Value" "long" XMLSchema_ns false;
               typed_element "Value" "Other" bingads_ns false])
           []).
  - simpl. discriminate.
  - reflexivity.
  - repeat constructor.
Defined.

Lemma child_without_type_witness :
  element_property
    {| root_name := "element"; name := "Address"; qname := ("Address", bingads_ns);
       nillable := false; type := None; ref := Some ("Address", bingads_ns);
       rawchildren := [] |}
  = Ok (PStr "Address") /\
  element_property status_inline_element = Raise TypeError.
Proof.
  split.
  - refine (proj1 (child_without_type
                     {| root_name := "element"; name := "Address";
                        qname := ("Address", bingads_ns); nillable := false;
                        type := None; ref := Some ("Address", bingads_ns);
                        rawchildren := [] |} eq_refl)
              "Address" bingads_ns _ eq_refl).
    simpl. discriminate.
  - refine (proj2 (child_without_type status_inline_element eq_refl) _).
    right. reflexivity.
Defined.

(** ** The type map *)

Lemma get_type_map_inv (types : list SchemaObject) (tm : TypeMap) (h' : list Py) :
  get_type_map types = Ok (tm, h') ->
  exists h, first_pass types [] [] = Ok (tm, h).
Proof.
  unfold get_type_map. intros H.
  destruct (first_pass types [] []) as [[tm0 h0]|]; [|discriminate H]. simpl in H.
  destruct (second_pass tm0 tm0 h0) as [h1|]; [|discriminate H]. simpl in H.
  injection H as <- <-. exists h0. reflexivity.
Qed.

Lemma first_pass_app (l1 l2 : list SchemaObject) (tm : TypeMap) (h : list Py) :
  first_pass (l1 ++ l2) tm h
  = match first_pass l1 tm h with
    | Ok (tm1, h1) => first_pass l2 tm1 h1
    | Raise e => Raise e
    end.
Proof.
  revert tm h. induction l1 as [|t l1 IH]; intros tm h; simpl; [reflexivity|].
  destruct (in_service_namespace (snd (qname t))); simpl; [|apply IH].
  destruct (wsdl_type_to_schema t) as [s|]; simpl; [apply IH|reflexivity].
Qed.

Lemma first_pass_skip (pre post : list SchemaObject) (t : SchemaObject)
    (tm : TypeMap) (h : list Py) :
  in_service_namespace (snd (qname t)) = false ->
  first_pass (pre ++ t :: post) tm h = first_pass (pre ++ post) tm h.
Proof.
  intros Hns. rewrite !first_pass_app.
  destruct (first_pass pre tm h) as [[tm1 h1]|]; [|reflexivity].
  simpl. rewrite Hns. reflexivity.
Qed.

(** X13: a type whose namespace contains neither
    [https://bingads.microsoft.com] nor [http://schemas.datacontract.org] is
    left out before its shape is looked at: the type map, the store and any
    exception are those of the list without it, also when its own shape would
    raise. *)
Theorem foreign_type_is_skipped (pre post : list SchemaObject) (t : SchemaObject) :
  in_service_namespace (snd (qname t)) = false ->
  get_type_map (pre ++ t :: post) = get_type_map (pre ++ post).
Proof.
  intros Hns. unfold get_type_map. rewrite (first_pass_skip pre post t [] [] Hns).
  reflexivity.
Qed.

Lemma foreign_type_is_skipped_witness :
  get_type_map ([order_type]
                ++ {| root_name := "complexType"; name := "Broken";
                      qname := ("Broken", XMLSchema_ns); nillable := false;
                      type := None; ref := None; rawchildren := [] |}
                :: [customer_type])
  = get_type_map ([order_type] ++ [customer_type]).
Proof.
  apply (foreign_type_is_skipped [order_type] [customer_type]). reflexivity.
Defined.

Lemma dict_get_set {V : Type} (k n : string) (v : V) (d : dict V) :
  dict_get n (dict_set k v d) = if String.eqb n k then Some v else dict_get n d.
Proof.
  destruct (String.eqb_spec n k) as [->|Hne].
  - apply dict_get_set_eq.
  - apply dict_get_set_ne. congruence.
Qed.

Lemma first_pass_keys (types : list SchemaObject) (tm tm' : TypeMap) (h h' : list Py)
    (n : string) :
  first_pass types tm h = Ok (tm', h') ->
  ((exists l, dict_get n tm' = Some l) <->
   (exists l, dict_get n tm = Some l) \/
   exists t, t ∈ types /\ in_service_namespace (snd (qname t)) = true /\ name t = n).
Proof.
  revert tm h. induction types as [|t rest IH]; intros tm h H; simpl in H.
  - injection H as <- <-. split; [auto|].
    intros [Hl|(t & Ht & _)]; [exact Hl|inversion Ht].
  - destruct (in_service_namespace (snd (qname t))) eqn:Hns; simpl in H.
    + destruct (wsdl_type_to_schema t) as [s|]; [|discriminate H]. simpl in H.
      rewrite (IH _ _ H), dict_get_set. split.
      * intros [[l Hl]|(u & Hu & Hins & Hname)].
        -- destruct (String.eqb_spec n (name t)) as [->|Hne].
           ++ right. exists t. split; [left|auto].
           ++ left. exists l. exact Hl.
        -- right. exists u. split; [right; exact Hu|auto].
      * intros [[l Hl]|(u & Hu & Hins & Hname)].
        -- left. destruct (String.eqb n (name t)); eauto.
        -- apply elem_of_cons in Hu as [->|Hu].
           ++ left. rewrite <- Hname, String.eqb_refl. eauto.
           ++ right. exists u. auto.
    + rewrite (IH _ _ H). split.
      * intros [Hl|(u & Hu & Hins & Hname)]; [left; exact Hl|].
        right. exists u. split; [right; exact Hu|auto].
      * intros [Hl|(u & Hu & Hins & Hname)]; [left; exact Hl|].
        apply elem_of_cons in Hu as [->|Hu]; [congruence|].
        right. exists u. auto.
Qed.

(** X14: the names of the type map that [get_type_map] returns are exactly
    the names of the types whose namespace is one of the service's. *)
Theorem type_map_names (types : list SchemaObject) (tm : TypeMap) (h' : list Py)
    (n : string) :
  get_type_map types = Ok (tm, h') ->
  ((exists l, dict_get n tm = Some l) <->
   exists t, t ∈ types /\ in_service_namespace (snd (qname t)) = true /\ name t = n).
Proof.
  intros H. destruct (get_type_map_inv types tm h' H) as [h H1].
  rewrite (first_pass_keys types [] tm [] h n H1). split.
  - intros [[l Hl]|Ht]; [discriminate Hl|exact Ht].
  - intros Ht. right. exact Ht.
Qed.

Lemma type_map_names_witness :
  (exists l, dict_get "Customer" [("Order", 0%nat); ("Customer", 1%nat)] = Some l) <->
  exists t, t ∈ [order_type; customer_type] /\
            in_service_namespace (snd (qname t)) = true /\ name t = "Customer".
Proof.
  apply (type_map_names [order_type; customer_type] _
           [object_schema [("Id", PDict [("type", PList [PStr "integer"])]);
                           ("Buyer", PRef 1)];
            object_schema customer_properties]).
  reflexivity.
Defined.

Lemma first_pass_frame (types : list SchemaObject) (tm tm' : TypeMap) (h h' : list Py)
    (n : string) :
  first_pass types tm h = Ok (tm', h') ->
  (exists added, h' = h ++ added) /\
  (Forall (fun u => in_service_namespace (snd (qname u)) = true -> name u <> n) types ->
   dict_get n tm' = dict_get n tm).
Proof.
  revert tm h. induction types as [|t rest IH]; intros tm h H; simpl in H.
  - injection H as <- <-. split; [exists []; rewrite app_nil_r; reflexivity|reflexivity].
  - destruct (in_service_namespace (snd (qname t))) eqn:Hns; simpl in H.
    + destruct (wsdl_type_to_schema t) as [s|]; [|discriminate H]. simpl in H.
      destruct (IH _ _ H) as [[added ->] Hget]. split.
      * exists ([s] ++ added). rewrite app_assoc. reflexivity.
      * intros Hall. apply Forall_cons in Hall as [Ht Hall].
        rewrite (Hget Hall). apply dict_get_set_ne. exact (Ht Hns).
    + destruct (IH _ _ H) as [Hadd Hget]. split; [exact Hadd|].
      intros Hall. apply Forall_cons in Hall as [_ Hall]. exact (Hget Hall).
Qed.

(** X15: when several types of the service have the same name, the type
    map holds the last one declared: its entry is the dict built from that
    declaration, resolved by pass 2. *)
Theorem last_declaration_wins (pre post : list SchemaObject) (t : SchemaObject)
    (tm : TypeMap) (h' : list Py) :
  get_type_map (pre ++ t :: post) = Ok (tm, h') ->
  in_service_namespace (snd (qname t)) = true ->
  Forall (fun u => in_service_namespace (snd (qname u)) = true -> name u <> name t) post ->
  exists l s,
    dict_get (name t) tm = Some l /\
    wsdl_type_to_schema t = Ok s /\
    h' !! l = Some (resolve_schema tm s).
Proof.
  intros H Hns Hpost.
  destruct (get_type_map_inv _ tm h' H) as [h H1].
  destruct (get_type_map_spec _ tm h H1) as (h0 & H2 & Hspec).
  rewrite H in H2. injection H2 as <-.
  rewrite first_pass_app in H1.
  destruct (first_pass pre [] []) as [[tm0 h0]|]; [|discriminate H1].
  simpl in H1. rewrite Hns in H1. simpl in H1.
  destruct (wsdl_type_to_schema t) as [s|]; [|discriminate H1]. simpl in H1.
  destruct (first_pass_frame post _ tm _ h (name t) H1) as [[added ->] Hget].
  exists (List.length h0), s.
  assert (Hl : dict_get (name t) tm = Some (List.length h0)).
  { rewrite (Hget Hpost). apply dict_get_set_eq. }
  split; [exact Hl|]. split; [reflexivity|].
  destruct (Hspec (name t) _ Hl) as (cell & Hc & Hc').
  rewrite <- app_assoc in Hc. rewrite lookup_app_r in Hc by lia.
  rewrite Nat.sub_diag in Hc. simpl in Hc. injection Hc as <-. exact Hc'.
Qed.

Lemma last_declaration_wins_witness :
  exists l s,
    dict_get "Customer" [("Customer", 1%nat)] = Some l /\
    wsdl_type_to_schema customer_type = Ok s /\
    [object_schema [("Name", PDict [("type", PList [PStr "string"])])];
     object_schema customer_properties] !! l
    = Some (resolve_schema [("Customer", 1%nat)] s).
Proof.
  apply (last_declaration_wins
           [complex_type "Customer" [typed_element "Name" "string" XMLSchema_ns false]]
           [] customer_type).
  - reflexivity.
  - reflexivity.
  - constructor.
Defined.

Lemma first_pass_first_Raise (pre post : list SchemaObject) (t : SchemaObject)
    (x : exn) (tm : TypeMap) (h : list Py) :
  Forall (fun u => in_service_namespace (snd (qname u)) = true ->
                   exists s, wsdl_type_to_schema u = Ok s) pre ->
  in_service_namespace (snd (qname t)) = true ->
  wsdl_type_to_schema t = Raise x ->
  first_pass (pre ++ t :: post) tm h = Raise x.
Proof.
  intros Hpre Hns Ht. revert tm h.
  induction Hpre as [|u pre Hu _ IH]; intros tm h; simpl.
  - rewrite Hns, Ht. reflexivity.
  - destruct (in_service_namespace (snd (qname u))); simpl; [|apply IH].
    destruct (Hu eq_refl) as [s ->]. simpl. apply IH.
Qed.

(** X16: when the shape of a type of the service raises, the types
    before it having a shape, [get_type_map] raises that exception: there is
    no type map of the remaining types. *)
Theorem get_type_map_raises (pre post : list SchemaObject) (t : SchemaObject) (x : exn) :
  Forall (fun u => in_service_namespace (snd (qname u)) = true ->
                   exists s, wsdl_type_to_schema u = Ok s) pre ->
  in_service_namespace (snd (qname t)) = true ->
  wsdl_type_to_schema t = Raise x ->
  get_type_map (pre ++ t :: post) = Raise x.
Proof.
  intros Hpre Hns Ht. unfold get_type_map.
  rewrite (first_pass_first_Raise pre post t x [] [] Hpre Hns Ht). reflexivity.
Qed.

Lemma get_type_map_raises_witness :
  get_type_map ([customer_type] ++ account_type status_inline_element :: [order_type])
  = Raise TypeError.
Proof.
  apply (get_type_map_raises [customer_type] [order_type]
           (account_type status_inline_element) TypeError).
  - constructor; [|constructor]. intros _. eexists. reflexivity.
  - reflexivity.
  - reflexivity.
Defined.

Lemma element_property_value (e : SchemaObject) (v : Py) :
  element_property e = Ok v ->
  (exists s, v = PStr s) \/ (exists d, v = PDict d).
Proof.
  assert (Hj : forall x, get_json_schema x = Ok v -> exists d, v = PDict d).
  { intros x Hx. apply get_json_schema_wf in Hx as (d & -> & _). eauto. }
  unfold element_property.
  destruct (String.eqb (root_name e) "enumeration"); [right; eauto|].
  destruct (is_None (type e) && negb (is_None (ref e))).
  { destruct (subscript0 (ref e)) as [r|]; [|discriminate]. simpl.
    intros [= <-]. left. eauto. }
  destruct (subscript1 (type e)) as [ns|]; [|discriminate]. simpl.
  destruct (negb (String.eqb ns XMLSchema_ns)); [|right; eauto].
  destruct (subscript0 (type e)) as [t|]; [|discriminate]. simpl.
  destruct (str_contains "ArrayOfstring" t).
  - unfold get_array_type. destruct (array_type_match t); [|discriminate].
    intros [= <-]. right. eauto.
  - intros [= <-]. left. eauto.
Qed.

Lemma dict_set_values_Forall {V : Type} (P : V -> Prop) (k : string) (v : V)
    (d : dict V) :
  P v -> Forall P d.*2 -> Forall P (dict_set k v d).*2.
Proof.
  intros Hv Hd. apply Forall_forall. intros x Hx.
  apply dict_set_values in Hx as [->|Hx]; [exact Hv|].
  rewrite Forall_forall in Hd. exact (Hd x Hx).
Qed.

Lemma build_properties_values (elements : list SchemaObject) (acc props : dict Py) :
  Forall (fun v => (exists s, v = PStr s) \/ (exists d, v = PDict d)) acc.*2 ->
  build_properties elements acc = Ok props ->
  Forall (fun v => (exists s, v = PStr s) \/ (exists d, v = PDict d)) props.*2.
Proof.
  revert acc. induction elements as [|e rest IH]; intros acc Hacc H; simpl in H.
  - injection H as <-. exact Hacc.
  - destruct (element_property e) as [v|] eqn:Hv; [|discriminate H]. simpl in H.
    apply (IH _ (dict_set_values_Forall _ _ v _ (element_property_value e v Hv) Hacc) H).
Qed.

Lemma get_json_schema_no_properties (e : SchemaObject) (s : Py) :
  get_json_schema e = Ok s ->
  exists schema, s = PDict schema /\ dict_get "properties" schema = None.
Proof.
  unfold get_json_schema. intros H.
  destruct (String.eqb (root_name e) "simpleType").
  - destruct (first (rawchildren e)) as [r|]; [|discriminate H].
    simpl in H. injection H as <-.
    destruct (rawchildren r); eexists; (split; reflexivity).
  - destruct (subscript0 (type e)) as [t|]; [|discriminate H].
    simpl in H. injection H as <-.
    destruct (String.eqb t "dateTime" || (String.eqb t "date" || false));
      eexists; (split; reflexivity).
Qed.

(** Pass 1 stores no reference: a property of a dict that
    [wsdl_type_to_schema] built is a string or a fragment. *)
Lemma wsdl_type_to_schema_property (t : SchemaObject) (cell : Py) (h : list Py)
    (l : nat) (prop : string) (v : Py) :
  wsdl_type_to_schema t = Ok cell ->
  h !! l = Some cell ->
  property_at h l prop = Some v ->
  (exists s, v = PStr s) \/ (exists d, v = PDict d).
Proof.
  unfold wsdl_type_to_schema, property_at. intros Ht Hl. rewrite Hl.
  destruct (String.eqb (root_name t) "simpleType").
  - apply get_json_schema_no_properties in Ht as (schema & -> & Hnone).
    rewrite Hnone. discriminate.
  - destruct (first (rawchildren t)) as [c|]; [|discriminate Ht]. simpl in Ht.
    destruct (build_properties (rawchildren c) []) as [props|] eqn:Hb; [|discriminate Ht].
    simpl in Ht. injection Ht as <-. simpl. intros Hv.
    apply dict_get_elem_of in Hv.
    pose proof (build_properties_values _ [] props ltac:(constructor) Hb) as Hall.
    rewrite Forall_forall in Hall. exact (Hall v Hv).
Qed.

Lemma first_pass_cells (types : list SchemaObject) (tm tm' : TypeMap) (h h' : list Py) :
  Forall (fun cell => exists t, wsdl_type_to_schema t = Ok cell) h ->
  first_pass types tm h = Ok (tm', h') ->
  Forall (fun cell => exists t, wsdl_type_to_schema t = Ok cell) h'.
Proof.
  revert tm h. induction types as [|t rest IH]; intros tm h Hh H; simpl in H.
  - injection H as <- <-. exact Hh.
  - destruct (in_service_namespace (snd (qname t))); simpl in H; [|exact (IH _ _ Hh H)].
    destruct (wsdl_type_to_schema t) as [s|] eqn:Hs; [|discriminate H]. simpl in H.
    apply (IH _ _ (proj2 (Forall_app _ _ _) (conj Hh (Forall_cons_2 _ _ _ (ex_intro _ t Hs) (Forall_nil_2 _)))) H).
Qed.

(** X17: after [get_type_map], a property of a mapped type is a fragment,
    or a string naming a type that the map does not have, or a reference to
    the dict of a type that the map has, which is in the store: no
    placeholder that could be resolved is left, and no reference dangles. *)
Theorem resolved_properties (types : list SchemaObject) (tm : TypeMap) (h' : list Py)
    (n : string) (l : nat) (prop : string) (v : Py) :
  get_type_map types = Ok (tm, h') ->
  dict_get n tm = Some l ->
  property_at h' l prop = Some v ->
  (exists d, v = PDict d) \/
  (exists s, v = PStr s /\ dict_get s tm = None) \/
  (exists s target cell, v = PRef target /\ dict_get s tm = Some target /\
                         h' !! target = Some cell).
Proof.
  intros H Hn Hv.
  destruct (get_type_map_inv types tm h' H) as [h H1].
  rewrite (get_type_map_property types tm h h' n l prop H1 H Hn) in Hv.
  destruct (property_at h l prop) as [v0|] eqn:Hv0; [|discriminate Hv].
  simpl in Hv. injection Hv as <-.
  destruct (get_type_map_spec types tm h H1) as (h0 & H2 & Hspec).
  rewrite H in H2. injection H2 as <-.
  destruct (Hspec n l Hn) as (cell & Hc & _).
  pose proof (first_pass_cells types [] tm [] h ltac:(constructor) H1) as Hcells.
  rewrite Forall_forall in Hcells.
  destruct (Hcells cell (list_elem_of_lookup_2 _ _ _ Hc)) as [t Ht].
  destruct (wsdl_type_to_schema_property t cell h l prop v0 Ht Hc Hv0)
    as [[s ->]|[d ->]].
  - simpl. destruct (dict_get s tm) as [target|] eqn:Hs.
    + right. right. destruct (Hspec s target Hs) as (cell' & _ & Hc').
      exists s, target, (resolve_schema tm cell'). auto.
    + right. left. exists s. auto.
  - left. exists d. reflexivity.
Qed.

Lemma resolved_properties_witness :
  (exists d, PRef 1 = PDict d) \/
  (exists s, PRef 1 = PStr s /\ dict_get s chain_type_map = None) \/
  (exists s target cell, PRef 1 = PRef target /\ dict_get s chain_type_map = Some target /\
                         chain_heap !! target = Some cell).
Proof.
  apply (resolved_properties chain_types chain_type_map chain_heap "A" 0 "b");
    reflexivity.
Defined.

(** X18: pass 2 touches nothing but placeholders: a property that is not
    a string after pass 1 is the same after [get_type_map], and a name that
    is no property of a type after pass 1 is none afterwards. *)
Theorem other_properties_kept (types : list SchemaObject) (tm : TypeMap)
    (h h' : list Py) (n : string) (l : nat) (prop : string) :
  first_pass types [] [] = Ok (tm, h) ->
  get_type_map types = Ok (tm, h') ->
  dict_get n tm = Some l ->
  (forall v, property_at h l prop = Some v -> (forall s, v <> PStr s) ->
     property_at h' l prop = Some v) /\
  (property_at h l prop = None -> property_at h' l prop = None).
Proof.
  intros H1 H2 Hn.
  rewrite (get_type_map_property types tm h h' n l prop H1 H2 Hn). split.
  - intros v -> Hv. destruct v; try reflexivity. exfalso. exact (Hv s eq_refl).
  - intros ->. reflexivity.
Qed.

Lemma other_properties_kept_witness :
  (forall v, property_at gap_heap_pass1 1 "Id" = Some v -> (forall s, v <> PStr s) ->
     property_at
       [object_schema [("Amount", PDict [("type", PList [PStr "null"; PStr "number"])])];
        object_schema [("Id", PDict [("type", PList [PStr "null"; PStr "integer"])]);
                       ("Budget", PRef 0);
                       ("Settings", PStr "ArrayOfSetting")]] 1 "Id" = Some v) /\
  (property_at gap_heap_pass1 1 "Id" = None ->
   property_at
     [object_schema [("Amount", PDict [("type", PList [PStr "null"; PStr "number"])])];
      object_schema [("Id", PDict [("type", PList [PStr "null"; PStr "integer"])]);
                     ("Budget", PRef 0);
                     ("Settings", PStr "ArrayOfSetting")]] 1 "Id" = None).
Proof.
  apply (other_properties_kept gap_types gap_type_map gap_heap_pass1 _ "Campaign" 1 "Id");
    reflexivity.
Defined.

Lemma resolve_descriptor_idem (tm : TypeMap) (v : Py) :
  resolve_descriptor tm (resolve_descriptor tm v) = resolve_descriptor tm v.
Proof.
  destruct v; try reflexivity. simpl.
  destruct (dict_get s tm) eqn:E; simpl; [reflexivity|]. rewrite E. reflexivity.
Qed.

Lemma resolve_properties_idem (tm : TypeMap) (props : dict Py) :
  resolve_properties tm (resolve_properties tm props) = resolve_properties tm props.
Proof.
  unfold resolve_properties. rewrite map_map. apply map_ext. intros [k v]. simpl.
  rewrite resolve_descriptor_idem. reflexivity.
Qed.

Lemma resolve_schema_wf (tm : TypeMap) (cell : Py) :
  schema_wf cell ->
  schema_wf (resolve_schema tm cell) /\
  resolve_schema tm (resolve_schema tm cell) = resolve_schema tm cell.
Proof.
  intros (schema & -> & [Hnone|(props & Hp & Hnd)]); unfold resolve_schema.
  - rewrite Hnone. split; [|rewrite Hnone; reflexivity].
    exists schema. split; [reflexivity|left; exact Hnone].
  - rewrite Hp. rewrite dict_get_set_eq, dict_set_set, resolve_properties_idem.
    split; [|reflexivity].
    eexists. split; [reflexivity|]. right.
    exists (resolve_properties tm props). split; [apply dict_get_set_eq|].
    rewrite resolve_properties_keys. exact Hnd.
Qed.

Lemma get_type_map_store (types : list SchemaObject) (tm : TypeMap) (h : list Py) :
  first_pass types [] [] = Ok (tm, h) ->
  exists h',
    get_type_map types = Ok (tm, h') /\
    NoDup tm.*2 /\
    (forall l, l ∈ tm.*2 ->
       exists cell, h !! l = Some cell /\ schema_wf cell /\
                    h' !! l = Some (resolve_schema tm cell)) /\
    (forall l, l ∉ tm.*2 -> h' !! l = h !! l).
Proof.
  intros H1.
  destruct (first_pass_inv types [] tm [] h) as (Hnd & Hlt & Hwf);
    [constructor| |constructor|exact H1|].
  { intros l Hl. inversion Hl. }
  assert (Hcells : forall l, l ∈ tm.*2 -> exists cell, h !! l = Some cell /\ schema_wf cell).
  { intros l Hl. destruct (lookup_lt_is_Some_2 h l (Hlt l Hl)) as [cell Hc].
    exists cell. split; [exact Hc|].
    rewrite Forall_forall in Hwf. apply Hwf.
    eapply list_elem_of_lookup_2. exact Hc. }
  destruct (second_pass_spec tm tm h Hnd Hcells) as (h' & Hrun & _ & Hin & Hout).
  exists h'. split; [|split; [exact Hnd|split; [|exact Hout]]].
  - unfold get_type_map. rewrite H1. simpl. rewrite Hrun. reflexivity.
  - intros l Hl. destruct (Hcells l Hl) as (cell & Hc & Hcwf).
    exists cell. split; [exact Hc|]. split; [exact Hcwf|].
    rewrite (Hin l Hl), Hc. reflexivity.
Qed.

(** X19: the second loop of [get_type_map] is idempotent: run again on
    the store that [get_type_map] returned, it does not raise and leaves
    every dict as it is. *)
Theorem second_pass_idempotent (types : list SchemaObject) (tm : TypeMap)
    (h' : list Py) :
  get_type_map types = Ok (tm, h') ->
  second_pass tm tm h' = Ok h'.
Proof.
  intros H. destruct (get_type_map_inv types tm h' H) as [h H1].
  destruct (get_type_map_store types tm h H1) as (h0 & H2 & Hnd & Hin & Hout).
  rewrite H in H2. injection H2 as <-.
  destruct (second_pass_spec tm tm h' Hnd) as (h2 & Hrun & _ & Hin2 & Hout2).
  { intros l Hl. destruct (Hin l Hl) as (cell & _ & Hwf & Hc').
    exists (resolve_schema tm cell). split; [exact Hc'|].
    apply resolve_schema_wf. exact Hwf. }
  rewrite Hrun. f_equal. apply list_eq. intros l.
  destruct (decide (l ∈ tm.*2)) as [Hl|Hl].
  - rewrite (Hin2 l Hl). destruct (Hin l Hl) as (cell & _ & Hwf & ->). simpl.
    f_equal. apply resolve_schema_wf. exact Hwf.
  - exact (Hout2 l Hl).
Qed.

Lemma second_pass_idempotent_witness :
  second_pass chain_type_map chain_type_map chain_heap = Ok chain_heap.
Proof.
  apply (second_pass_idempotent chain_types). reflexivity.
Defined.

(** ** Stream definitions and discovery *)

(** A stream definition has its five entries whatever the key; its
    replication method is [INCREMENTAL], with a [replication_key] entry,
    exactly when a non-empty replication key is given, and [FULL_TABLE],
    without that entry, otherwise: an empty key counts as none. *)
Theorem get_stream_def_replication (stream_name : string) (pks : list string)
    (schema : Py) (replication_key : option string) :
  exists d,
    get_stream_def stream_name pks schema replication_key = PDict d /\
    dict_get "tap_stream_id" d = Some (PStr stream_name) /\
    dict_get "stream" d = Some (PStr stream_name) /\
    dict_get "key_properties" d = Some (PList (map PStr pks)) /\
    dict_get "schema" d = Some schema /\
    (dict_get "replication_method" d = Some (PStr "INCREMENTAL") \/
     dict_get "replication_method" d = Some (PStr "FULL_TABLE")) /\
    (dict_get "replication_method" d = Some (PStr "INCREMENTAL")
     <-> exists k, replication_key = Some k /\ k <> "") /\
    (forall k, dict_get "replication_key" d = Some (PStr k)
               <-> replication_key = Some k /\ k <> "") /\
    (dict_get "replication_key" d = None
     <-> replication_key = None \/ replication_key = Some "").
Proof.
  unfold get_stream_def. destruct replication_key as [[|c k]|]; eexists;
    (split; [reflexivity|]); simpl; repeat split;
    try (intros; discriminate); try reflexivity; try (right; reflexivity);
    try (left; reflexivity); try (intros [k' [H1 H2]]; congruence);
    try (intros [H1 H2]; congruence); try (intros [H|H]; discriminate);
    try (intros [= <-]; split; [reflexivity|discriminate]);
    try (intros [[= <-] _]; reflexivity);
    try (intros _; eexists; split; [reflexivity|discriminate]);
    auto; intros; congruence.
Qed.

Section DiscoverProperties.

Variable service_types : string -> result (list SchemaObject).
Variable json_dump : list (Py * list Py) -> result unit.

Variables customer_types campaign_types : list SchemaObject.
Variables customer_map campaign_map : TypeMap.
Variables customer_store campaign_store : list Py.

Hypothesis customer_service :
  service_types "CustomerManagementService" = Ok customer_types.
Hypothesis customer_type_map :
  get_type_map customer_types = Ok (customer_map, customer_store).

(** X20: when a service has no type named after an entity that discovery
    asks for, [discover_core_objects] raises [KeyError] and nothing reaches
    [json.dump]: without [Account] in the customer service the campaign
    service is not even asked; without [Campaign], [AdGroup] or [Ad] in the
    campaign service the stream already built for accounts is dropped. *)
Theorem discover_missing_entity :
  (dict_get "Account" customer_map = None ->
   discover_core_objects service_types json_dump = Raise KeyError) /\
  (forall account,
     dict_get "Account" customer_map = Some account ->
     service_types "CampaignManagementService" = Ok campaign_types ->
     get_type_map campaign_types = Ok (campaign_map, campaign_store) ->
     dict_get "Campaign" campaign_map = None \/
     dict_get "AdGroup" campaign_map = None \/
     dict_get "Ad" campaign_map = None ->
     discover_core_objects service_types json_dump = Raise KeyError).
Proof.
  unfold discover_core_objects. rewrite customer_service.
  cbv beta iota delta [mbind result_bind]. rewrite customer_type_map.
  unfold type_map_getitem. split.
  - intros ->. reflexivity.
  - intros account -> -> -> Hmissing.
    destruct (dict_get "Campaign" campaign_map); [|reflexivity].
    destruct (dict_get "AdGroup" campaign_map); [|reflexivity].
    destruct (dict_get "Ad" campaign_map); [|reflexivity].
    destruct Hmissing as [H|[H|H]]; discriminate H.
Qed.

(** X21: when the four entities are there, what goes to [json.dump] is
    the list of the four stream definitions [accounts], [campaigns],
    [ad_groups], [ads] in this order, each with key [Id], method
    [FULL_TABLE] and, as schema, the reference to the entity's dict in the
    type map of its service; [do_discover] is that and nothing more. *)
Theorem discover_catalog (account campaign ad_group ad : nat) :
  dict_get "Account" customer_map = Some account ->
  service_types "CampaignManagementService" = Ok campaign_types ->
  get_type_map campaign_types = Ok (campaign_map, campaign_store) ->
  dict_get "Campaign" campaign_map = Some campaign ->
  dict_get "AdGroup" campaign_map = Some ad_group ->
  dict_get "Ad" campaign_map = Some ad ->
  let stream n l :=
    PDict [("tap_stream_id", PStr n); ("stream", PStr n);
           ("key_properties", PList [PStr "Id"]); ("schema", PRef l);
           ("replication_method", PStr "FULL_TABLE")] in
  let catalog :=
    [(stream "accounts" account, customer_store);
     (stream "campaigns" campaign, campaign_store);
     (stream "ad_groups" ad_group, campaign_store);
     (stream "ads" ad, campaign_store)] in
  discover_core_objects service_types json_dump = json_dump catalog /\
  do_discover service_types json_dump = json_dump catalog.
Proof.
  intros Ha Hs Hm Hc Hg Hd stream catalog.
  assert (H : discover_core_objects service_types json_dump = json_dump catalog).
  { unfold discover_core_objects. rewrite customer_service.
    cbv beta iota delta [mbind result_bind]. rewrite customer_type_map.
    unfold type_map_getitem. rewrite Ha, Hs, Hm, Hc, Hg, Hd. reflexivity. }
  split; [exact H|]. unfold do_discover, discover_reports. rewrite H.
  cbv beta iota delta [mbind result_bind]. destruct (json_dump catalog) as [[]|]; reflexivity.
Qed.

End DiscoverProperties.

Lemma discover_missing_entity_witness :
  discover_core_objects demo_service_types_no_ad demo_json_dump = Raise KeyError.
Proof.
  refine (proj2 (discover_missing_entity demo_service_types_no_ad demo_json_dump
                   [entity_type "Account"] [entity_type "AdGroup"; entity_type "Campaign"]
                   [("Account", 0%nat)] [("AdGroup", 0%nat); ("Campaign", 1%nat)]
                   (entity_store ["Account"]) (entity_store ["AdGroup"; "Campaign"])
                   eq_refl eq_refl)
            0%nat eq_refl eq_refl eq_refl _).
  right. right. reflexivity.
Defined.

Lemma discover_catalog_witness :
  do_discover demo_service_types demo_json_dump = Ok tt.
Proof.
  refine (proj2 (discover_catalog demo_service_types demo_json_dump
                   [entity_type "Account"]
                   [entity_type "Ad"; entity_type "AdGroup"; entity_type "Campaign"]
                   [("Account", 0%nat)]
                   [("Ad", 0%nat); ("AdGroup", 1%nat); ("Campaign", 2%nat)]
                   (entity_store ["Account"]) (entity_store ["Ad"; "AdGroup"; "Campaign"])
                   eq_refl eq_refl 0%nat 2%nat 1%nat 0%nat
                   eq_refl eq_refl eq_refl eq_refl eq_refl eq_refl)).
Defined.

(** ** Entry point *)

Lemma split_on_nonempty (sep : ascii) (s : string) : split_on sep s <> [].
Proof.
  destruct s as [|c s]; simpl; [discriminate|].
  destruct (Ascii.eqb c sep); [discriminate|].
  destruct (split_on sep s); discriminate.
Qed.

Lemma join_split (sep : ascii) (s : string) : join_with sep (split_on sep s) = s.
Proof.
  induction s as [|c s IH]; [reflexivity|]. simpl.
  pose proof (split_on_nonempty sep s) as Hne.
  destruct (Ascii.eqb_spec c sep) as [->|Hc].
  - destruct (split_on sep s) as [|x xs]; [congruence|].
    rewrite <- IH. reflexivity.
  - destruct (split_on sep s) as [|x xs]; [congruence|].
    rewrite <- IH. destruct xs; reflexivity.
Qed.

Lemma split_on_no_separator (sep : ascii) (s : string) :
  Forall (fun part => no_separator sep part = true) (split_on sep s).
Proof.
  induction s as [|c s IH]; simpl; [repeat constructor|].
  destruct (Ascii.eqb_spec c sep) as [->|Hc].
  - constructor; [reflexivity|exact IH].
  - destruct (split_on sep s) as [|x xs]; [repeat constructor|].
    + unfold no_separator. simpl.
      assert (E : Ascii.eqb sep c = false) by (apply Ascii.eqb_neq; congruence).
      rewrite E. reflexivity.
    + apply Forall_cons in IH as [Hx Hxs]. constructor; [|exact Hxs].
      unfold no_separator in *. simpl.
      assert (E : Ascii.eqb sep c = false) by (apply Ascii.eqb_neq; congruence).
      rewrite E. exact Hx.
Qed.

Section MainProperties.

Variable Client : Type.
Variable create_sdk_client : string -> Py -> Py -> result Client.
Variable GetAccount : Client -> Py -> result Py.
Variable GetCampaignsByAccountId : Client -> Py -> result Py.
Variable GetAdGroupsByCampaignId : Client -> Py -> result Py.
Variable GetAdsByAdGroupId : Client -> Py -> result Py.
Variable strftime : Z -> string.
Variable service_types : string -> result (list SchemaObject).
Variable json_dump : list (Py * list Py) -> result unit.

Local Notation "'run_main'" :=
  (main_impl Client create_sdk_client GetAccount GetCampaignsByAccountId
     GetAdGroupsByCampaignId GetAdsByAdGroupId strftime service_types json_dump).
Local Notation "'sync_all'" :=
  (do_sync_all_accounts Client create_sdk_client GetAccount GetCampaignsByAccountId
     GetAdGroupsByCampaignId GetAdsByAdGroupId strftime).

(** X22: [main_impl] splits [account_ids] before it looks at the mode:
    with a config entry that is not a string it raises [AttributeError],
    in discovery mode too, and nothing is discovered or written. *)
Theorem main_impl_account_ids (args : Args) (v : Py) (out : Out) :
  dict_get "account_ids" (config args) = Some v ->
  (forall s, v <> PStr s) ->
  run_main args out = (out, Raise AttributeError).
Proof.
  unfold main_impl. intros H Hv. cbn [py_getitem]. rewrite H.
  rewrite (M_bind_lift _ v _ _ eq_refl).
  destruct v; try reflexivity. exfalso. exact (Hv s eq_refl).
Qed.

(** X23: with [--discover], [main_impl] runs the discovery and nothing
    else, whatever catalog is given: no record is written, and it ends with
    the exception of [do_discover] or with "Discovery complete".  Without
    [--discover] and without a catalog it does nothing at all. *)
Theorem main_impl_without_sync (args : Args) (s : string) (out : Out) :
  dict_get "account_ids" (config args) = Some (PStr s) ->
  (discover args = true ->
   run_main args out
   = (out, match do_discover service_types json_dump with
           | Ok _ => Ok DiscoveryComplete
           | Raise e => Raise e
           end)) /\
  (discover args = false -> catalog args = None ->
   run_main args out = (out, Ok NoCatalogProvided)).
Proof.
  intros H. unfold main_impl. cbn [py_getitem]. rewrite H.
  rewrite (M_bind_lift _ (PStr s) _ _ eq_refl).
  rewrite (M_bind_lift _ (map PStr (split_on "," s)) _ _ eq_refl). split.
  - intros ->. unfold mbind at 1, M_bind, lift.
    destruct (do_discover service_types json_dump); reflexivity.
  - intros -> ->. reflexivity.
Qed.

(** X24: in sync mode the accounts synced are the comma-separated parts
    of [account_ids], in order, under the [customer_id] of the config:
    joined by commas the parts give the config string back, none contains a
    comma, and there is at least one, so that an empty [account_ids] syncs
    the one account with the empty id. *)
Theorem main_impl_sync (args : Args) (s : string) (selected_streams : list string)
    (customer_id : Py) (out : Out) :
  dict_get "account_ids" (config args) = Some (PStr s) ->
  dict_get "customer_id" (config args) = Some customer_id ->
  discover args = false ->
  catalog args = Some selected_streams ->
  exists ids,
    split_on "," s = ids /\ ids <> [] /\ join_with "," ids = s /\
    Forall (fun part => no_separator "," part = true) ids /\
    run_main args out
    = (sync_all customer_id (map PStr ids) selected_streams
       ≫= fun _ => mret SyncCompleted) out.
Proof.
  intros H Hcid Hd Hc. exists (split_on "," s).
  split; [reflexivity|]. split; [apply split_on_nonempty|].
  split; [apply join_split|]. split; [apply split_on_no_separator|].
  unfold main_impl. cbn [py_getitem]. rewrite H, Hd, Hc, Hcid.
  rewrite (M_bind_lift _ (PStr s) _ _ eq_refl).
  rewrite (M_bind_lift _ (map PStr (split_on "," s)) _ _ eq_refl).
  rewrite (M_bind_lift _ customer_id _ _ eq_refl). reflexivity.
Qed.

End MainProperties.

Lemma main_impl_account_ids_witness :
  main_impl unit demo_create_sdk_client demo_GetAccount demo_GetCampaignsByAccountId
    demo_GetAdGroupsByCampaignId demo_GetAdsByAdGroupId demo_strftime
    demo_service_types demo_json_dump (demo_args (PInt 12) true None) []
  = ([], Raise AttributeError).
Proof.
  apply (main_impl_account_ids unit demo_create_sdk_client demo_GetAccount
           demo_GetCampaignsByAccountId demo_GetAdGroupsByCampaignId
           demo_GetAdsByAdGroupId demo_strftime demo_service_types demo_json_dump
           (demo_args (PInt 12) true None) (PInt 12) []);
    [reflexivity|discriminate].
Defined.

Lemma main_impl_without_sync_witness :
  main_impl unit demo_create_sdk_client demo_GetAccount demo_GetCampaignsByAccountId
    demo_GetAdGroupsByCampaignId demo_GetAdsByAdGroupId demo_strftime
    demo_service_types demo_json_dump
    (demo_args (PStr "1,2") true (Some ["campaigns"])) []
  = ([], Ok DiscoveryComplete).
Proof.
  refine (proj1 (main_impl_without_sync unit demo_create_sdk_client demo_GetAccount
                   demo_GetCampaignsByAccountId demo_GetAdGroupsByCampaignId
                   demo_GetAdsByAdGroupId demo_strftime demo_service_types demo_json_dump
                   (demo_args (PStr "1,2") true (Some ["campaigns"])) "1,2" [] eq_refl)
            eq_refl).
Defined.

Lemma main_impl_sync_witness :
  exists ids,
    split_on "," "" = ids /\ ids <> [] /\ join_with "," ids = "" /\
    Forall (fun part => no_separator "," part = true) ids /\
    main_impl unit demo_create_sdk_client demo_GetAccount demo_GetCampaignsByAccountId
      demo_GetAdGroupsByCampaignId demo_GetAdsByAdGroupId demo_strftime
      demo_service_types demo_json_dump
      (demo_args (PStr "") false (Some ["campaigns"])) []
    = (do_sync_all_accounts unit demo_create_sdk_client demo_GetAccount
         demo_GetCampaignsByAccountId demo_GetAdGroupsByCampaignId
         demo_GetAdsByAdGroupId demo_strftime (PStr "customer") (map PStr ids)
         ["campaigns"]
       ≫= fun _ => mret SyncCompleted) [].
Proof.
  apply (main_impl_sync unit demo_create_sdk_client demo_GetAccount
           demo_GetCampaignsByAccountId demo_GetAdGroupsByCampaignId
           demo_GetAdsByAdGroupId demo_strftime demo_service_types demo_json_dump
           (demo_args (PStr "") false (Some ["campaigns"])) "" ["campaigns"]
           (PStr "customer") []);
    reflexivity.
Defined.

(** ** The sync walk *)

Section SyncFurther.

Variable Client : Type.
Variable create_sdk_client : string -> Py -> Py -> result Client.
Variable GetAccount : Client -> Py -> result Py.
Variable GetCampaignsByAccountId : Client -> Py -> result Py.
Variable GetAdGroupsByCampaignId : Client -> Py -> result Py.
Variable GetAdsByAdGroupId : Client -> Py -> result Py.
Variable strftime : Z -> string.

Local Notation "'to_dict'" := (sobject_to_dict strftime).
Local Notation "'campaigns_of'" :=
  (sync_campaigns Client GetCampaignsByAccountId strftime).
Local Notation "'ad_groups_loop'" :=
  (sync_ad_groups_loop Client GetAdGroupsByCampaignId strftime).
Local Notation "'ads_of'" := (sync_ads Client GetAdsByAdGroupId strftime).
Local Notation "'account_of'" :=
  (sync_account_stream Client create_sdk_client GetAccount strftime).
Local Notation "'core_objects'" :=
  (sync_core_objects Client create_sdk_client GetAccount GetCampaignsByAccountId
     GetAdGroupsByCampaignId GetAdsByAdGroupId strftime).
Local Notation "'all_accounts'" :=
  (do_sync_all_accounts Client create_sdk_client GetAccount GetCampaignsByAccountId
     GetAdGroupsByCampaignId GetAdsByAdGroupId strftime).

Lemma for_each_app {A : Type} (l1 l2 : list A) (body : A -> M unit) (out : Out) :
  for_each (l1 ++ l2) body out
  = match for_each l1 body out with
    | (out1, Ok _) => for_each l2 body out1
    | (out1, Raise e) => (out1, Raise e)
    end.
Proof.
  revert out. induction l1 as [|x l1 IH]; intros out; simpl; [reflexivity|].
  unfold mbind, M_bind. destruct (body x out) as [out1 [[]|e]]; [apply IH|reflexivity].
Qed.

(** X26: the accounts are synced one after the other, in the order
    given: syncing [first ++ later] is syncing [first] and then, from the
    messages written so far, [later]; when an account of [first] ends with
    an exception the run ends with it, the messages written until then are
    kept and no account of [later] is synced. *)
Theorem do_sync_all_accounts_app (customer_id : Py) (first later : list Py)
    (selected_streams : list string) (out : Out) :
  all_accounts customer_id (first ++ later) selected_streams out
  = match all_accounts customer_id first selected_streams out with
    | (out1, Ok _) => all_accounts customer_id later selected_streams out1
    | (out1, Raise e) => (out1, Raise e)
    end.
Proof. unfold do_sync_all_accounts. apply for_each_app. Qed.

Lemma for_each_write_record_outcome (stream : string) (records : list Py) (out : Out) :
  exists written,
    for_each records (write_record stream) out
    = (out ++ written,
       if forallb json_serialisable records then Ok tt else Raise TypeError).
Proof.
  revert out. induction records as [|r rest IH]; intros out.
  - exists []. simpl. rewrite app_nil_r. reflexivity.
  - cbn [for_each forallb]. unfold mbind, M_bind.
    destruct (json_serialisable r) eqn:Hr.
    + rewrite (write_record_serialisable _ _ _ Hr).
      destruct (IH (out ++ [(stream, r)])) as [w Hw].
      exists ((stream, r) :: w). rewrite Hw, <- app_assoc. reflexivity.
    + rewrite (write_record_refused _ _ _ Hr).
      exists []. rewrite app_nil_r. reflexivity.
Qed.


End SyncFurther.

Section SyncEdges.

Variable Client : Type.
Variable create_sdk_client : string -> Py -> Py -> result Client.
Variable GetAccount : Client -> Py -> result Py.
Variable GetCampaignsByAccountId : Client -> Py -> result Py.
Variable GetAdGroupsByCampaignId : Client -> Py -> result Py.
Variable GetAdsByAdGroupId : Client -> Py -> result Py.
Variable strftime : Z -> string.

Local Notation "'to_dict'" := (sobject_to_dict strftime).
Local Notation "'core_objects'" :=
  (sync_core_objects Client create_sdk_client GetAccount GetCampaignsByAccountId
     GetAdGroupsByCampaignId GetAdsByAdGroupId strftime).
Local Notation "'account_part'" :=
  (fun customer_id account_id selected_streams =>
     if selected "accounts" selected_streams
     then sync_account_stream Client create_sdk_client GetAccount strftime
            customer_id account_id
     else mret tt).

Variables customer_id account_id response : Py.
Variable selected_streams : list string.
Variable client : Client.
Variables out out1 : Out.

Hypothesis account_done :
  account_part customer_id account_id selected_streams out = (out1, Ok tt).
Hypothesis client_created :
  create_sdk_client "CampaignManagementService" customer_id account_id = Ok client.
Hypothesis campaigns_fetched :
  GetCampaignsByAccountId client account_id = Ok response.

(** X28: for an account whose campaign response has no [Campaign] entry
    the sync ends normally after the account part: no campaign, ad-group or
    ad record is written, whatever the ad-group and ad operations would
    answer. *)
Theorem sync_without_campaigns :
  py_contains "Campaign" (to_dict response) = Ok false ->
  core_objects customer_id account_id selected_streams out = (out1, Ok tt).
Proof.
  intros Hno. unfold sync_core_objects.
  rewrite (M_bind_run _ tt _ out out1 account_done).
  rewrite (M_bind_lift _ _ _ _ client_created).
  assert (Hcampaigns :
    sync_campaigns Client GetCampaignsByAccountId strftime client account_id
      selected_streams out1 = (out1, Ok None)).
  { unfold sync_campaigns.
    rewrite (M_bind_lift _ _ _ _ campaigns_fetched).
    rewrite (M_bind_lift _ _ _ _ Hno). reflexivity. }
  rewrite (M_bind_run _ _ _ _ _ Hcampaigns). reflexivity.
Qed.

(** X25: a campaign record that [json.dumps] refuses, such as one with a
    [datetime] inside a list, which [sobject_to_dict] leaves as it is, stops
    the sync of the account with [TypeError] when the campaign stream is
    selected: the campaign records before it have been written, it and the
    later ones are not, and the ad groups are not asked for. *)
Theorem sync_stops_at_refused_campaign (before : list Py) (r : Py) (after : list Py) :
  selected "campaigns" selected_streams = true ->
  py_contains "Campaign" (to_dict response) = Ok true ->
  py_getitem (to_dict response) "Campaign" = Ok (PList (before ++ r :: after)) ->
  forallb json_serialisable before = true ->
  json_serialisable r = false ->
  core_objects customer_id account_id selected_streams out
  = (out1 ++ map (fun x => ("campaigns", x)) before, Raise TypeError).
Proof.
  intros Hselected Hin Hget Hbefore Hr.
  assert (Hcampaigns :
    sync_campaigns Client GetCampaignsByAccountId strftime client account_id
      selected_streams out1
    = (out1 ++ map (fun x => ("campaigns", x)) before, Raise TypeError)).
  { unfold sync_campaigns.
    rewrite (M_bind_lift _ _ _ _ campaigns_fetched).
    rewrite (M_bind_lift _ _ _ _ Hin).
    rewrite (M_bind_lift _ _ _ _ Hget).
    rewrite Hselected.
    apply M_bind_raise.
    rewrite (M_bind_lift _ (before ++ r :: after) _ _ eq_refl).
    apply for_each_write_record_refused; assumption. }
  unfold sync_core_objects.
  rewrite (M_bind_run _ tt _ out out1 account_done).
  rewrite (M_bind_lift _ _ _ _ client_created).
  apply M_bind_raise. exact Hcampaigns.
Qed.

(** X29: the [Id] of a campaign is read only when the ad groups are
    synced, one campaign at a time.  When the first campaign has no readable
    [Id] and the campaign records, if their stream is selected, are values
    that can be written, a sync with ad groups or ads selected raises the
    exception of that read after all campaign records, those of the later
    campaigns too, have been written; a sync with neither selected never
    reads the [Id] and ends normally with the same records. *)
Theorem campaign_id_read_late (c : Py) (cs : list Py) (e : exn) :
  py_contains "Campaign" (to_dict response) = Ok true ->
  py_getitem (to_dict response) "Campaign" = Ok (PList (c :: cs)) ->
  py_getitem c "Id" = Raise e ->
  (selected "campaigns" selected_streams = true ->
   forallb json_serialisable (c :: cs) = true) ->
  let records :=
    if selected "campaigns" selected_streams
    then map (fun r => ("campaigns", r)) (c :: cs) else [] in
  (selected "ad_groups" selected_streams || selected "ads" selected_streams = true ->
   core_objects customer_id account_id selected_streams out
   = (out1 ++ records, Raise e)) /\
  (selected "ad_groups" selected_streams || selected "ads" selected_streams = false ->
   core_objects customer_id account_id selected_streams out
   = (out1 ++ records, Ok tt)).
Proof.
  intros Hin Hget Hid Hserialisable records.
  assert (Hcampaigns :
    sync_campaigns Client GetCampaignsByAccountId strftime client account_id
      selected_streams out1
    = (out1 ++ records, Ok (Some (map (fun x => py_getitem x "Id") (c :: cs))))).
  { unfold sync_campaigns.
    rewrite (M_bind_lift _ _ _ _ campaigns_fetched).
    rewrite (M_bind_lift _ _ _ _ Hin).
    rewrite (M_bind_lift _ _ _ _ Hget).
    erewrite (M_bind_run _ tt _ out1 (out1 ++ records)).
    - rewrite (M_bind_lift _ (c :: cs) _ _ eq_refl). reflexivity.
    - unfold records. revert Hserialisable.
      destruct (selected "campaigns" selected_streams); intros Hserialisable.
      + rewrite (M_bind_lift _ (c :: cs) _ _ eq_refl).
        apply for_each_write_record, Hserialisable. reflexivity.
      + rewrite app_nil_r. reflexivity. }
  assert (Hstart :
    core_objects customer_id account_id selected_streams out
    = (if selected "ad_groups" selected_streams || selected "ads" selected_streams
       then
         ad_group_ids ← sync_ad_groups Client GetAdGroupsByCampaignId strftime client
                          (map (fun x => py_getitem x "Id") (c :: cs)) selected_streams;
         if selected "ads" selected_streams
         then sync_ads Client GetAdsByAdGroupId strftime client ad_group_ids
         else mret tt
       else mret tt) (out1 ++ records)).
  { unfold sync_core_objects.
    rewrite (M_bind_run _ tt _ out out1 account_done).
    rewrite (M_bind_lift _ _ _ _ client_created).
    rewrite (M_bind_run _ _ _ _ _ Hcampaigns). reflexivity. }
  rewrite Hstart. split; intros ->.
  - unfold sync_ad_groups. cbn [map sync_ad_groups_loop]. rewrite Hid. reflexivity.
  - reflexivity.
Qed.

End SyncEdges.

Lemma sync_without_campaigns_witness :
  sync_core_objects unit demo_create_sdk_client demo_GetAccount demo_no_campaigns
    demo_GetAdGroupsByCampaignId demo_GetAdsByAdGroupId demo_strftime
    (PStr "customer") (PInt 1) ["campaigns"; "ad_groups"; "ads"] []
  = ([], Ok tt).
Proof.
  apply (sync_without_campaigns unit demo_create_sdk_client demo_GetAccount
           demo_no_campaigns demo_GetAdGroupsByCampaignId demo_GetAdsByAdGroupId
           demo_strftime (PStr "customer") (PInt 1) (PStr "")
           ["campaigns"; "ad_groups"; "ads"] tt [] []);
    reflexivity.
Defined.

Lemma sync_stops_at_refused_campaign_witness :
  sync_core_objects unit demo_create_sdk_client demo_GetAccount
    demo_campaigns_undecoded demo_GetAdGroupsByCampaignId demo_GetAdsByAdGroupId
    demo_strftime (PStr "customer") (PInt 1) ["campaigns"; "ad_groups"; "ads"] []
  = ([("campaigns", PDict [("Id", PInt 10); ("Name", PStr "first")])],
     Raise TypeError).
Proof.
  apply (sync_stops_at_refused_campaign unit demo_create_sdk_client demo_GetAccount
           demo_campaigns_undecoded demo_GetAdGroupsByCampaignId demo_GetAdsByAdGroupId
           demo_strftime (PStr "customer") (PInt 1)
           (PSObject [("Campaign", PList [demo_entity 10 "first"; demo_undecoded_campaign;
                                          demo_entity 30 "third"])])
           ["campaigns"; "ad_groups"; "ads"] tt [] [] eq_refl eq_refl eq_refl
           [PDict [("Id", PInt 10); ("Name", PStr "first")]]
           (PDict [("Id", PInt 20); ("Dates", PList [PDatetime 0])])
           [PDict [("Id", PInt 30); ("Name", PStr "third")]]);
    reflexivity.
Defined.


Lemma campaign_id_read_late_witness :
  sync_core_objects unit demo_create_sdk_client demo_GetAccount
    demo_campaigns_without_id demo_GetAdGroupsByCampaignId demo_GetAdsByAdGroupId
    demo_strftime (PStr "customer") (PInt 1) ["campaigns"; "ads"] []
  = ([("campaigns", PDict [("Name", PStr "first")]);
      ("campaigns", PDict [("Name", PStr "second")])],
     Raise KeyError).
Proof.
  refine (proj1 (campaign_id_read_late unit demo_create_sdk_client demo_GetAccount
                   demo_campaigns_without_id demo_GetAdGroupsByCampaignId
                   demo_GetAdsByAdGroupId demo_strftime (PStr "customer") (PInt 1)
                   (PSObject [("Campaign", PList [PSObject [("Name", PStr "first")];
                                                  PSObject [("Name", PStr "second")]])])
                   ["campaigns"; "ads"] tt [] [] eq_refl eq_refl eq_refl
                   (PDict [("Name", PStr "first")]) [PDict [("Name", PStr "second")]]
                   KeyError eq_refl eq_refl eq_refl (fun _ => eq_refl)) eq_refl).
Defined.

(** ** Decoding SDK responses *)

(** Induction on a value with the hypothesis for every item of a list and
    every value of a dict or suds object. *)
Lemma Py_nested_ind (P : Py -> Prop) :
  P PNone ->
  (forall b, P (PBool b)) ->
  (forall z, P (PInt z)) ->
  (forall s, P (PStr s)) ->
  (forall l, Forall P l -> P (PList l)) ->
  (forall d, Forall (fun kv => P (snd kv)) d -> P (PDict d)) ->
  (forall l, P (PRef l)) ->
  (forall items, Forall (fun kv => P (snd kv)) items -> P (PSObject items)) ->
  (forall t, P (PDatetime t)) ->
  forall v, P v.
Proof.
  intros HNone HBool HInt HStr HList HDict HRef HObj HDt.
  fix IH 1. intros [|b|z|s|l|d|l|items|t].
  - exact HNone.
  - apply HBool.
  - apply HInt.
  - apply HStr.
  - apply HList. revert l. fix IHl 1. intros [|x l].
    + constructor.
    + constructor; [apply IH|apply IHl].
  - apply HDict. revert d. fix IHd 1. intros [|[k x] d].
    + constructor.
    + constructor; [apply IH|apply IHd].
  - apply HRef.
  - apply HObj. revert items. fix IHi 1. intros [|[k x] items].
    + constructor.
    + constructor; [apply IH|apply IHi].
  - apply HDt.
Qed.

Lemma dict_set_forallb {V : Type} (P : string * V -> bool) (k : string) (v : V)
    (d : dict V) :
  (forall k', P (k', v) = true) ->
  forallb P d = true ->
  forallb P (dict_set k v d) = true.
Proof.
  intros Hv. induction d as [|[k' v'] d IH]; simpl.
  - intros _. rewrite Hv. reflexivity.
  - intros H. apply andb_prop in H as [H1 H2].
    destruct (String.eqb k k'); simpl.
    + rewrite Hv, H2. reflexivity.
    + rewrite H1, (IH H2). reflexivity.
Qed.

Section Decoding.

Variable strftime : Z -> string.

Local Notation "'to_dict'" := (sobject_to_dict strftime).

Lemma sobject_to_dict_plain_list (l : list Py) :
  Forall (fun x => suds_shaped x = true -> plain (to_dict x) = true) l ->
  forallb suds_shaped l = true ->
  forallb plain (map to_dict l) = true.
Proof.
  induction 1 as [|x l Hx _ IHl]; [reflexivity|].
  cbn [forallb map]. intros H. apply andb_prop in H as [Hsx Hsl].
  rewrite (Hx Hsx), (IHl Hsl). reflexivity.
Qed.

Lemma sobject_to_dict_plain_items (items : list (string * Py)) :
  Forall (fun kv =>
            (suds_shaped (snd kv) = true -> plain (to_dict (snd kv)) = true) /\
            (forall l, snd kv = PList l ->
               Forall (fun x => suds_shaped x = true -> plain (to_dict x) = true) l))
         items ->
  suds_shaped (PSObject items) = true ->
  plain (to_dict (PSObject items)) = true.
Proof.
  intros Hall. cbn [suds_shaped sobject_to_dict plain].
  generalize (eq_refl : forallb (fun kv : string * Py => plain (snd kv)) [] = true).
  generalize (@nil (string * Py)) as acc.
  induction Hall as [|[k v] items [Hv Hlist] _ IHitems]; intros acc Hacc Hitems.
  - exact Hacc.
  - cbn [forallb] in Hitems. apply andb_prop in Hitems as [Hshape Hitems].
    apply IHitems; [|exact Hitems].
    apply dict_set_forallb; [|exact Hacc]. intros k'. cbn [snd] in *.
    destruct v as [| | | | l | | | |]; try exact Hshape.
    + cbn [plain]. exact (sobject_to_dict_plain_list l (Hlist l eq_refl) Hshape).
    + apply Hv. exact Hshape.
Qed.

Lemma sobject_to_dict_plain_all (v : Py) :
  (suds_shaped v = true -> plain (to_dict v) = true) /\
  (forall l, v = PList l ->
     Forall (fun x => suds_shaped x = true -> plain (to_dict x) = true) l).
Proof.
  induction v as [| | | |l IHl|d IHd| |items IHitems|] using Py_nested_ind;
    try (split; [intros H; exact H|intros l' Hl'; discriminate Hl']).
  - split; [intros H; exact H|]. intros l' [= <-].
    apply Forall_impl with (1 := IHl). intros x [Hx _]. exact Hx.
  - split; [|intros l' Hl'; discriminate Hl'].
    apply sobject_to_dict_plain_items. exact IHitems.
Qed.

Lemma sobject_to_dict_plain (v : Py) :
  suds_shaped v = true -> plain (to_dict v) = true.
Proof. apply sobject_to_dict_plain_all. Qed.

(** X30: an SDK response made of suds objects whose attributes are suds
    objects, lists of suds objects or of plain values, [datetime]s or plain
    values is decoded completely: in what [sobject_to_dict] returns no suds
    object and no [datetime] is left at any depth.  A [datetime] that is an
    item of a list is outside this shape, and it is returned as it is. *)
Theorem sobject_to_dict_decodes (v : Py) :
  (suds_shaped v = true -> plain (to_dict v) = true) /\
  (forall k t, to_dict (PSObject [(k, PList [PDatetime t])])
               = PDict [(k, PList [PDatetime t])]) /\
  (forall k t, to_dict (PSObject [(k, PDatetime t)]) = PDict [(k, PStr (strftime t))]).
Proof.
  split; [apply sobject_to_dict_plain|]. split; reflexivity.
Qed.

End Decoding.

Lemma sobject_to_dict_decodes_witness :
  plain (sobject_to_dict demo_strftime
           (PSObject [("Campaign", PList [demo_entity 10 "first"]);
                      ("Since", PDatetime 0)])) = true.
Proof.
  apply (proj1 (sobject_to_dict_decodes demo_strftime
                  (PSObject [("Campaign", PList [demo_entity 10 "first"]);
                             ("Since", PDatetime 0)]))).
  reflexivity.
Defined.
